(** * pyena: a shallow embedding of [pyena/client.py]

    The client registers samples, experiments and runs with the ENA
    drop-box.  This development embeds the functions of [client.py] as
    Rocq functions and states the properties of the response classifier
    ([handle_response]), the vocabulary normaliser ([_convert_platform]),
    the submission client ([submit_today]) and the orchestrator ([cli]).

    Conventions.
    - A Python [str] is a [string]; a character is a code point below
      256, so that [lower] and [split] agree with Python on Latin-1 text.
    - A value that may be [None] is an [option]; the integer outcome codes
      are [Z].
    - The archive, the FTP server, the clock and the file system are an
      external world: [Env] gives their operations as functions over an
      abstract [World], threaded through a state and exception monad.
    - An uncaught Python exception is a value of [exn]; [sys.exit] raises
      [SystemExit]. *)

From Stdlib Require Import String Ascii List ZArith Lia Bool Arith DecimalString.
Import ListNotations.
Local Open Scope list_scope.
Local Open Scope string_scope.

(** ** Python strings *)

Module PyStr.

Definition dquote : ascii := "034"%char.
Definition newline : ascii := "010"%char.
Definition dq : string := String dquote "".
Definition nl : string := String newline "".

(** [str.isspace] on one code point below 256. *)
Definition isspace (c : ascii) : bool :=
  let n := nat_of_ascii c in
  (((9 <=? n) && (n <=? 13)) || ((28 <=? n) && (n <=? 32))
   || (n =? 133) || (n =? 160))%nat.

(** Code points below 256 that [str.lower] changes. *)
Definition isupper (c : ascii) : bool :=
  let n := nat_of_ascii c in
  (((65 <=? n) && (n <=? 90))
   || ((192 <=? n) && (n <=? 222) && negb (n =? 215)))%nat.

Definition lower_char (c : ascii) : ascii :=
  if isupper c then ascii_of_nat (nat_of_ascii c + 32) else c.

(** [s.lower()] *)
Fixpoint lower (s : string) : string :=
  match s with
  | EmptyString => EmptyString
  | String c s' => String (lower_char c) (lower s')
  end.

(** [s.replace(a, b)] for one-character [a] and [b]. *)
Fixpoint replace_char (a b : ascii) (s : string) : string :=
  match s with
  | EmptyString => EmptyString
  | String c s' =>
      String (if Ascii.eqb c a then b else c) (replace_char a b s')
  end.

(** [s.replace(a, "")] for a one-character [a]. *)
Fixpoint remove_char (a : ascii) (s : string) : string :=
  match s with
  | EmptyString => EmptyString
  | String c s' =>
      if Ascii.eqb c a then remove_char a s' else String c (remove_char a s')
  end.

(** [p in s] *)
Fixpoint contains (p s : string) : bool :=
  prefix p s ||
  match s with
  | EmptyString => false
  | String _ s' => contains p s'
  end.

Definition is_empty (s : string) : bool :=
  match s with EmptyString => true | _ => false end.

(** [s.split()]: the maximal runs of characters that are not white space.
    [cur] is the run being read. *)
Fixpoint split_from (cur s : string) : list string :=
  match s with
  | EmptyString => if is_empty cur then [] else [cur]
  | String c s' =>
      if isspace c
      then (if is_empty cur then split_from "" s' else cur :: split_from "" s')
      else split_from (cur ++ String c "") s'
  end.

Definition split (s : string) : list string := split_from "" s.

(** [sep.join(l)] *)
Fixpoint join (sep : string) (l : list string) : string :=
  match l with
  | [] => ""
  | [x] => x
  | x :: l' => x ++ sep ++ join sep l'
  end.

(** [c * n] for a one-character string. *)
Fixpoint repeat_char (c : ascii) (n : nat) : string :=
  match n with
  | O => ""
  | S n' => String c (repeat_char c n')
  end.

(** [str(n)] for an integer. *)
Definition str_of_Z (n : Z) : string := NilZero.string_of_int (Z.to_int n).

(** [str(x)] for a string that may be [None]. *)
Definition str_of_opt (x : option string) : string :=
  match x with
  | Some s => s
  | None => "None"
  end.

(** Truth value of a string that may be [None]. *)
Definition truthy (x : option string) : bool :=
  match x with
  | Some s => negb (is_empty s)
  | None => false
  end.

(** Number of positions of [s] at which [p] starts. *)
Fixpoint count_occ (p s : string) : nat :=
  (if prefix p s then 1 else 0) +
  match s with
  | EmptyString => 0
  | String _ s' => count_occ p s'
  end.

(** [c] occurs in [s]. *)
Fixpoint has_char (c : ascii) (s : string) : bool :=
  match s with
  | EmptyString => false
  | String d s' => Ascii.eqb d c || has_char c s'
  end.

(** [os.path.basename]: what follows the last slash. *)
Fixpoint basename_from (cur s : string) : string :=
  match s with
  | EmptyString => cur
  | String c s' =>
      if Ascii.eqb c "/"%char then basename_from "" s'
      else basename_from (cur ++ String c "") s'
  end.

Definition basename (s : string) : string := basename_from "" s.

End PyStr.
Import PyStr.

(** ** Vocabulary normaliser *)

(** [_convert_library_strategy]; [None] is not a key and passes through. *)
Definition _convert_library_strategy (s : option string) : option string :=
  match s with
  | Some "TARGETED_CAPTURE" => Some "Targeted-Capture"
  | _ => s
  end.

(** The dictionary [valid_enums], in insertion order. *)
Definition valid_enums : list (string * list (string * string)) :=
  [ ("ILLUMINA",
      [ ("X Five", "HiSeq X Five");
        ("X Ten", "HiSeq X Ten");
        ("Genome Analyzer", "Illumina Genome Analyzer");
        ("Genome Analyzer II", "Illumina Genome Analyzer II");
        ("Genome Analyzer IIx", "Illumina Genome Analyzer IIx");
        ("HiScanSQ", "Illumina HiScanSQ");
        ("HiSeq 1000", "Illumina HiSeq 1000");
        ("HiSeq 1500", "Illumina HiSeq 1500");
        ("HiSeq 2000", "Illumina HiSeq 2000");
        ("HiSeq 2500", "Illumina HiSeq 2500");
        ("HiSeq 3000", "Illumina HiSeq 3000");
        ("HiSeq 4000", "Illumina HiSeq 4000");
        ("iSeq 100", "Illumina iSeq 100");
        ("MiSeq", "Illumina MiSeq");
        ("MiniSeq", "Illumina MiniSeq");
        ("NovaSeq 6000", "Illumina NovaSeq 6000");
        ("NextSeq 500", "NextSeq 500");
        ("NextSeq 550", "NextSeq 550");
        ("hiseq", "unspecified");
        ("miseq", "unspecified");
        ("iseq", "unspecified");
        ("novaseq", "unspecified");
        ("nextseq", "unspecified") ]);
    ("OXFORD_NANOPORE",
      [ ("MinION", "MinION");
        ("GridION", "GridION");
        ("PromethION", "PromethION") ]);
    ("ION_TORRENT",
      [ ("Ion Torrent PGM", "Ion Torrent PGM");
        ("Ion Torrent Proton", "Ion Torrent Proton");
        ("Ion Torrent S5", "Ion Torrent S5");
        ("Ion Torrent S5 XL", "Ion Torrent S5 XL") ]) ].

(** The inner loop of [_convert_platform] over one platform's models. *)
Fixpoint scan_models (instrument_name : string)
    (instrument_models : list (string * string)) : option string :=
  match instrument_models with
  | [] => None
  | (possible_model_k, possible_model_v) :: rest =>
      if contains (lower possible_model_k) instrument_name
      then Some possible_model_v
      else scan_models instrument_name rest
  end.

(** The outer loop of [_convert_platform] over the platforms. *)
Fixpoint scan_makes (instrument_name : string)
    (enums : list (string * list (string * string)))
    : option string * option string :=
  match enums with
  | [] => (None, None)
  | (instrument_make, instrument_models) :: rest =>
      match scan_models instrument_name instrument_models with
      | Some v => (Some instrument_make, Some v)
      | None => scan_makes instrument_name rest
      end
  end.

Definition _convert_platform (instrument_name : string)
    : option string * option string :=
  let instrument_name := lower (replace_char "_"%char " "%char instrument_name) in
  scan_makes instrument_name valid_enums.

(** ** Outcome codes of the response classifier *)

Definition OK : Z := 0.
Definition DUPLICATE : Z := 1.
Definition FATAL : Z := -1.
Definition MISSING_UPLOAD : Z := -3.

(** ** Parsed documents

    What [BeautifulSoup(content, 'xml')] returns: the top-level nodes of
    the document.  A node is a string or a tag with its attributes and
    contents. *)

#[warnings="-register-all"]
Inductive node : Type :=
| NavigableString (s : string)
| Tag (name : string) (attrs : list (string * string)) (contents : list node).

(** [tag.findAll(name)] restricted to the subtree of one node, the node
    included: the tags called [name], in document order. *)
Fixpoint findAll_node (name : string) (n : node) : list node :=
  match n with
  | NavigableString _ => []
  | Tag nm _ contents =>
      ((if String.eqb nm name then [n] else []) ++
       (fix over (l : list node) : list node :=
          match l with
          | [] => []
          | c :: l' => findAll_node name c ++ over l'
          end) contents)%list
  end.

(** [soup.findAll(name)] *)
Definition findAll (name : string) (soup : list node) : list node :=
  flat_map (findAll_node name) soup.

(** [soup.find(name)]: the first tag called [name], or [None]. *)
Definition find (name : string) (soup : list node) : option node :=
  hd_error (findAll name soup).

(** [tag.text]: the strings below the node, concatenated. *)
Fixpoint text (n : node) : string :=
  match n with
  | NavigableString s => s
  | Tag _ _ contents =>
      (fix over (l : list node) : string :=
         match l with
         | [] => ""
         | c :: l' => text c ++ over l'
         end) contents
  end.

(** Lookup in a dictionary kept as an association list. *)
Fixpoint dict_get (d : list (string * string)) (k : string) : option string :=
  match d with
  | [] => None
  | (k', v) :: d' => if String.eqb k' k then Some v else dict_get d' k
  end.

(** [d[k] = v]: a key already present keeps its place. *)
Fixpoint dict_set (d : list (string * string)) (k v : string)
    : list (string * string) :=
  match d with
  | [] => [(k, v)]
  | (k', v') :: d' =>
      if String.eqb k' k then (k', v) :: d' else (k', v') :: dict_set d' k v
  end.

(** [{x[0]: x[1] for x in l}] *)
Definition dict_of_pairs (l : list (string * string)) : list (string * string) :=
  fold_left (fun d x => dict_set d (fst x) (snd x)) l [].

(** ** Exceptions, the outside world and the monad *)

Inductive exn : Type :=
| SystemExit (code : Z)
| UnboundLocalError (name : string)
| TypeError
| AttributeError
| IndexError
| ExternalError (msg : string).

(** [tag.get(key)] on the result of [find]: calling it on [None] raises. *)
Definition get (t : option node) (key : string) : exn + option string :=
  match t with
  | Some (Tag _ attrs _) => inr (dict_get attrs key)
  | Some (NavigableString _) => inl AttributeError
  | None => inl AttributeError
  end.

Record response : Type := mkResponse {
  r_status_code : Z;
  r_text : string
}.

(** One record of the portal's JSON answer. *)
Record sample_record : Type := mkSample {
  sample_accession : string;
  sample_description : string;
  sample_alias : string;
  secondary_sample_accession : string
}.

(** What the process sends to the outside. *)
Inductive request : Type :=
| HttpGet (url : string)
| HttpPost (url : string) (files : list (string * string))
| FtpConnect
| FtpStor (cmd path : string)
| FtpQuit.

(** The collaborators of the client: HTTP transport, JSON decoding, FTP,
    the checksum helper of [pyena.util], the clock and the XML parser. *)
Record Env : Type := mkEnv {
  World : Type;
  requests_get : string -> World -> (exn + string) * World;
  json_loads : string -> exn + list sample_record;
  requests_post :
    string -> list (string * string) -> World -> (exn + response) * World;
  ftp_connect : World -> option string * World;
  ftp_storbinary : string -> string -> World -> option string * World;
  ftp_quit : World -> option string * World;
  hashfile : option string -> World -> exn + string;
  today : World -> string;
  bs : string -> list node
}.

(** The arguments [argparse] hands to [cli]; an option that was not given
    and has no default is [None]. *)
Record Args : Type := mkArgs {
  my_data_is_ready : bool;
  no_ftp : bool;
  sample_only : bool;
  modify : bool;
  study_accession : string;
  sample_attr : option (list (string * string));
  sample_name : string;
  sample_center_name : string;
  sample_taxon : string;
  experiment_attr : option (list (string * string));
  run_name : option string;
  run_file_path : option string;
  run_file_type : string;
  run_center_name : option string;
  run_instrument : option string;
  run_lib_source : option string;
  run_lib_selection : option string;
  run_lib_strategy : option string;
  run_lib_protocol : string
}.

(** The dictionary [library_d] of [register_experiment]. *)
Record library : Type := mkLibrary {
  lib_source : string;
  lib_selection : string;
  lib_strategy : option string;
  lib_protocol : string
}.

(** Ghost log: the entries into the registration functions, with their
    arguments. *)
Inductive call : Type :=
| Call_register_sample (sample_alias taxon_id center_name : string)
    (attributes : list (string * string)) (real modify : bool)
| Call_register_experiment (exp_alias : option string)
    (study_accession : string) (sample_accession : option string)
    (instrument : string) (library_d : library) (center_name : option string)
    (attributes : list (string * string)) (real : bool)
| Call_register_run (run_alias fn exp_accession center_name : option string)
    (fn_type : string) (real upload : bool).

Definition is_register_sample (c : call) : bool :=
  match c with
  | Call_register_sample _ _ _ _ _ _ => true
  | _ => false
  end.

(** The sample accession an experiment registration was entered with. *)
Definition experiment_sample (c : call) : option (option string) :=
  match c with
  | Call_register_experiment _ _ sample_accession _ _ _ _ _ =>
      Some sample_accession
  | _ => None
  end.

(** ** Submission envelopes *)

(** [_add_today]; [date] is [datetime.today().strftime('%Y-%m-%d')]. *)
Definition _add_today (center_name : string) (modify : bool) (date : string)
    : string :=
  let action :=
    if modify then
      nl ++ "        <ACTION>" ++ nl ++
      "            <MODIFY/>" ++ nl ++
      "        </ACTION>"
    else
      nl ++ "        <ACTION>" ++ nl ++
      "            <ADD/>" ++ nl ++
      "        </ACTION>" ++ nl ++
      "        <ACTION>" ++ nl ++
      "            <HOLD HoldUntilDate=" ++ dq ++ date ++ dq ++ " />" ++ nl ++
      "        </ACTION>" ++ nl ++
      "         "
  in
  nl ++ "    <SUBMISSION center_name=" ++ dq ++ center_name ++ dq ++ ">" ++ nl ++
  "    <ACTIONS>" ++ action ++ nl ++
  "    </ACTIONS>" ++ nl ++
  "    </SUBMISSION>" ++ nl ++
  "    ".

(** The document [release_xml] of [_release_target]. *)
Definition release_xml (target : option string) (center_name : string) : string :=
  nl ++ "    <SUBMISSION center_name=" ++ dq ++ center_name ++ dq ++ ">" ++ nl ++
  "    <ACTIONS>" ++ nl ++
  "        <ACTION>" ++ nl ++
  "            <RELEASE target=" ++ dq ++ str_of_opt target ++ dq ++ " />" ++ nl ++
  "        </ACTION>" ++ nl ++
  "    </ACTIONS>" ++ nl ++
  "    </SUBMISSION>" ++ nl ++
  "    ".

(** The two drop-box endpoints. *)
Definition dropbox_url (real : bool) : string :=
  if real then "https://www.ebi.ac.uk/ena/submit/drop-box/submit/"
  else "https://wwwdev.ebi.ac.uk/ena/submit/drop-box/submit/".

(** The unused helper [status_code] of the module. *)
Definition status_code (response_text : string) : Z := 0.

(** The three error phrases [handle_response] looks for. *)
Definition phrase_exists : string :=
  "already exists in the submission account with accession:".
Definition phrase_waiting : string :=
  "has already been submitted and is waiting to be processed".
Definition phrase_upload : string :=
  "does not exist in the upload area".

(** [l[-1]] *)
Definition index_last (l : list string) : exn + string :=
  match l with
  | [] => inl IndexError
  | _ => inr (last l "")
  end.

(** [l[n]] for a natural [n] *)
Definition index_nth (l : list string) (n : nat) : exn + string :=
  match nth_error l n with
  | Some x => inr x
  | None => inl IndexError
  end.

(** Concatenation with [+] of operands that may be [None]: the first
    [None], from the left, raises [TypeError]. *)
Fixpoint str_concat (l : list (option string)) : exn + string :=
  match l with
  | [] => inr ""
  | None :: _ => inl TypeError
  | Some x :: l' =>
      match str_concat l' with
      | inr r => inr (x ++ r)
      | inl e => inl e
      end
  end.

(** [s.replace("_", " ")] on an argument that may be [None]. *)
Definition replace_underscores (s : option string) : exn + string :=
  match s with
  | Some x => inr (replace_char "_"%char " "%char x)
  | None => inl AttributeError
  end.

(** [{x[0]: x[1] for x in l}] on an argument that may be [None]. *)
Definition dict_comprehension (l : option (list (string * string)))
    : exn + list (string * string) :=
  match l with
  | Some x => inr (dict_of_pairs x)
  | None => inl TypeError
  end.

(** The attribute lines of a sample or an experiment: entries with an
    empty value are dropped. *)
Definition attribute_lines (element : string) (attributes : list (string * string))
    : string :=
  join nl
    (map (fun kv =>
            "<" ++ element ++ "><TAG>" ++ fst kv ++ "</TAG><VALUE>" ++ snd kv ++
            "</VALUE></" ++ element ++ ">")
       (filter (fun kv => negb (is_empty (snd kv))) attributes)).

Definition stars : string := repeat_char "*"%char 80.

(** ** The client *)

Section Client.

Variable E : Env.

(** The state of a run: the outside world, what was written to the two
    streams, what was sent, and the ghost call log. *)
Record State : Type := mkState {
  world : World E;
  stderr : list string;
  stdout : list string;
  sent : list request;
  calls : list call
}.

(** A computation changes the state and returns a value or raises. *)
Definition M (A : Type) : Type := State -> (exn + A) * State.

Definition ret {A : Type} (a : A) : M A := fun s => (inr a, s).

Definition raise {A : Type} (e : exn) : M A := fun s => (inl e, s).

Definition bind {A B : Type} (m : M A) (f : A -> M B) : M B :=
  fun s =>
    match m s with
    | (inr a, s') => f a s'
    | (inl e, s') => (inl e, s')
    end.

Definition lift {A : Type} (r : exn + A) : M A := fun s => (r, s).

Notation "x <- m ;; k" := (bind m (fun x => k))
  (at level 61, m at next level, right associativity).
Notation "' pat <- m ;; k" := (bind m (fun x => match x with pat => k end))
  (at level 61, pat pattern, m at next level, right associativity).
Notation "m ;; k" := (bind m (fun _ => k))
  (at level 61, right associativity).

Definition write_stderr (msg : string) : M unit :=
  fun s => (inr tt, mkState (world s) (stderr s ++ [msg]) (stdout s) (sent s) (calls s)).

Definition write_stdout (msg : string) : M unit :=
  fun s => (inr tt, mkState (world s) (stderr s) (stdout s ++ [msg]) (sent s) (calls s)).

Definition log_call (c : call) : M unit :=
  fun s => (inr tt, mkState (world s) (stderr s) (stdout s) (sent s) (calls s ++ [c])).

(** One exchange with the outside: the request is recorded, the world
    answers and moves on. *)
Definition exchange {A : Type} (rq : request) (op : World E -> A * World E) : M A :=
  fun s =>
    let (a, w) := op (world s) in
    (inr a, mkState w (stderr s) (stdout s) (sent s ++ [rq]) (calls s)).

Definition post (url : string) (files : list (string * string)) : M response :=
  r <- exchange (HttpPost url files) (requests_post E url files) ;;
  lift r.

(** [get_sample_list] *)
Definition get_sample_list (project samp_name : string) : M (list sample_record) :=
  let url :=
    "https://www.ebi.ac.uk/ena/portal/api/search?query=study_accession=%22" ++
    project ++ "%22%20AND%20sample_alias=%22" ++ samp_name ++
    "%22&result=sample&fields=sample_accession,sample_description,sample_alias,secondary_sample_accession&limit=0&download=false&format=json" in
  r <- exchange (HttpGet url) (requests_get E url) ;;
  body <- lift r ;;
  lift (json_loads E body).

(** [_release_target] *)
Definition _release_target (target : option string) (center_name : string)
    (real : bool) : M response :=
  post (dropbox_url real) [("SUBMISSION", release_xml target center_name)].

(** The [for] loop of [handle_response] over the ERROR elements, with its
    [break]s: the values of [response_code] and [response_accession] when
    the loop is left.  Both have their initial values, -1 and [None],
    while the loop runs. *)
Fixpoint scan_errors (errors : list node) : M (Z * option string) :=
  match errors with
  | [] => ret ((-1)%Z, None)
  | error :: rest =>
      if contains phrase_exists (text error) then
        tok <- lift (index_last (split (text error))) ;;
        let response_accession :=
          remove_char "."%char (remove_char dquote tok) in
        write_stderr ("[SKIP] Accession " ++ response_accession ++
                      " already exists. Moving on..." ++ nl) ;;
        ret (1%Z, Some response_accession)
      else if contains phrase_waiting (text error) then
        response_accession <- lift (index_nth (split (text error)) 4) ;;
        write_stderr ("[SKIP] File " ++ response_accession ++
                      " already uploaded. Cannot release again. Moving on..." ++ nl) ;;
        ret (1%Z, Some response_accession)
      else if contains phrase_upload (text error) then
        ret ((-3)%Z, None)
      else scan_errors rest
  end.

(** The [try] block of [handle_response]: any exception leaves
    [response_accession] as it was, [None]. *)
Definition try_parse_accession (soup : list node) (accession : string)
    : option string :=
  match get (find accession soup) "accession" with
  | inr a => a
  | inl _ => None
  end.

(** [handle_response]; [accession] is [None] for the default [False]. *)
Definition handle_response (status_code : Z) (content : string)
    (accession : option string) : M (Z * option string) :=
  if negb (status_code =? 200)%Z then
    write_stderr (join nl
      [ stars;
        "ENA responded with HTTP " ++ str_of_Z status_code ++ ".";
        "I don't know how to handle this. For your information, the response is below:";
        stars;
        content;
        stars ]) ;;
    ret ((-1)%Z, None)
  else
    let soup := bs E content in
    if (0 <? List.length (findAll "ERROR" soup))%nat then
      ' (response_code, response_accession) <- scan_errors (findAll "ERROR" soup) ;;
      if negb (truthy response_accession) && (response_code =? -1)%Z then
        write_stderr (join nl
          [ stars;
            "ENA responded with HTTP 200, but there were ERROR messages in the response.";
            "I don't know how to handle this. For your information, the response is below:";
            stars;
            content;
            stars ]) ;;
        ret ((-1)%Z, response_accession)
      else ret (response_code, response_accession)
    else
      let response_accession :=
        match accession with
        | Some tag => if is_empty tag then None else try_parse_accession soup tag
        | None => None
        end in
      ret (0%Z, response_accession).

(** [submit_today].  The clock is read for the hold date of the envelope. *)
Definition submit_today (submit_type payload center_name : string)
    (release_asap real modify : bool) : M (Z * option string) :=
  date <- (fun s => (inr (today E (world s)), s)) ;;
  let files :=
    dict_set (dict_set [] submit_type payload)
      "SUBMISSION" (_add_today center_name modify date) in
  r <- post (dropbox_url real) files ;;
  ' (status, accession) <-
    handle_response (r_status_code r) (r_text r) (Some submit_type) ;;
  if release_asap && (status =? 0)%Z then
    r <- _release_target accession center_name real ;;
    ' (status, _) <- handle_response (r_status_code r) (r_text r) None ;;
    (if (status =? 0)%Z
     then write_stderr ("[INFO] " ++ submit_type ++ " released successfully: " ++
                        str_of_opt accession ++ nl)
     else ret tt) ;;
    ret (status, accession)
  else ret (status, accession).

(** [register_sample] *)
Definition register_sample (sample_alias taxon_id center_name : string)
    (attributes : list (string * string)) (real modify : bool)
    : M (Z * option string) :=
  log_call (Call_register_sample sample_alias taxon_id center_name attributes real modify) ;;
  let s_attributes := attribute_lines "SAMPLE_ATTRIBUTE" attributes in
  let s_xml :=
    nl ++ "    <SAMPLE_SET>" ++ nl ++
    "    <SAMPLE alias=" ++ dq ++ sample_alias ++ dq ++ " center_name=" ++ dq ++
      center_name ++ dq ++ ">" ++ nl ++
    "    <TITLE>" ++ sample_alias ++ "</TITLE>" ++ nl ++
    "    <SAMPLE_NAME>" ++ nl ++
    "      <TAXON_ID>" ++ taxon_id ++ "</TAXON_ID>" ++ nl ++
    "    </SAMPLE_NAME>" ++ nl ++
    "    <SAMPLE_ATTRIBUTES>" ++ s_attributes ++ "</SAMPLE_ATTRIBUTES>" ++ nl ++
    "    </SAMPLE>" ++ nl ++
    "    </SAMPLE_SET>" ++ nl ++
    "    " in
  if modify
  then submit_today "SAMPLE" s_xml center_name false real modify
  else submit_today "SAMPLE" s_xml center_name true real modify.

(** An operand of [+] that is a string for sure. *)
Definition lit (x : string) : option string := Some x.

(** [register_experiment].  When the document [e_xml] could be built,
    [center_name] is a string. *)
Definition register_experiment (exp_alias : option string)
    (study_accession : string) (sample_accession : option string)
    (instrument : string) (library_d : library) (center_name : option string)
    (attributes : list (string * string)) (real : bool)
    : M (Z * option string) :=
  log_call (Call_register_experiment exp_alias study_accession sample_accession
              instrument library_d center_name attributes real) ;;
  let e_attributes := attribute_lines "EXPERIMENT_ATTRIBUTE" attributes in
  let '(platform, model) := _convert_platform instrument in
  let platform_stanza :=
    if truthy platform
    then "<" ++ str_of_opt platform ++ "><INSTRUMENT_MODEL>" ++ str_of_opt model ++
         "</INSTRUMENT_MODEL></" ++ str_of_opt platform ++ ">"
    else "" in
  let layout_stanza := ["<SINGLE />"] in
  let e_protocol :=
    if negb (is_empty (lib_protocol library_d))
    then "<LIBRARY_CONSTRUCTION_PROTOCOL>" ++ lib_protocol library_d ++
         "</LIBRARY_CONSTRUCTION_PROTOCOL>"
    else "" in
  e_xml <- lift (str_concat
    [ lit (nl ++ "    <EXPERIMENT_SET>" ++ nl ++ "    <EXPERIMENT alias=" ++ dq);
      exp_alias; lit (dq ++ " center_name=" ++ dq); center_name;
      lit (dq ++ ">" ++ nl ++ "       <TITLE>"); exp_alias;
      lit ("</TITLE>" ++ nl ++ "       <STUDY_REF accession=" ++ dq);
      lit study_accession;
      lit (dq ++ "/>" ++ nl ++ "       <DESIGN>" ++ nl ++
           "           <DESIGN_DESCRIPTION/>" ++ nl ++
           "           <SAMPLE_DESCRIPTOR accession=" ++ dq);
      sample_accession;
      lit (dq ++ "/>" ++ nl ++ "           <LIBRARY_DESCRIPTOR>" ++ nl ++
           "               <LIBRARY_NAME/>" ++ nl ++
           "               <LIBRARY_STRATEGY>");
      lib_strategy library_d;
      lit ("</LIBRARY_STRATEGY>" ++ nl ++ "               <LIBRARY_SOURCE>");
      lit (lib_source library_d);
      lit ("</LIBRARY_SOURCE>" ++ nl ++ "               <LIBRARY_SELECTION>");
      lit (lib_selection library_d);
      lit ("</LIBRARY_SELECTION>" ++ nl ++ "               <LIBRARY_LAYOUT>");
      lit (join "" layout_stanza);
      lit ("</LIBRARY_LAYOUT>" ++ nl ++ "           ");
      lit e_protocol;
      lit (nl ++ "           </LIBRARY_DESCRIPTOR>" ++ nl ++ "       </DESIGN>" ++ nl ++
           "       <PLATFORM>");
      lit platform_stanza;
      lit (nl ++ "       </PLATFORM>" ++ nl ++ "       <EXPERIMENT_ATTRIBUTES>");
      lit e_attributes;
      lit ("</EXPERIMENT_ATTRIBUTES>" ++ nl ++ "    </EXPERIMENT>" ++ nl ++
           "    </EXPERIMENT_SET>" ++ nl ++ "    ") ]) ;;
  center <- lift (match center_name with Some c => inr c | None => inl TypeError end) ;;
  submit_today "EXPERIMENT" e_xml center true real false.

(** The [try] block of [register_run]: [None] when it ran through, the
    text of the exception otherwise. *)
Definition ftp_upload (fn : option string) : M (option string) :=
  connected <- exchange FtpConnect (ftp_connect E) ;;
  match connected with
  | Some e => ret (Some e)
  | None =>
      match fn with
      | None => ret (Some "expected str, bytes or os.PathLike object, not NoneType")
      | Some path =>
          let cmd := "STOR " ++ basename path in
          stored <- exchange (FtpStor cmd path) (ftp_storbinary E cmd path) ;;
          match stored with
          | Some e => ret (Some e)
          | None => exchange FtpQuit (ftp_quit E)
          end
      end
  end.

(** [register_run] *)
Definition register_run (run_alias fn exp_accession center_name : option string)
    (fn_type : string) (real upload : bool) : M (Z * option string) :=
  log_call (Call_register_run run_alias fn exp_accession center_name
              fn_type real upload) ;;
  failed <- (if upload then ftp_upload fn else ret None) ;;
  match failed with
  | Some e =>
      write_stderr ("[FAIL] FTP transfer timed out or failed for " ++
                    str_of_opt fn ++ nl ++ e) ;;
      ret ((-1)%Z, None)
  | None =>
      fn_checksum <- (fun s => (hashfile E fn (world s), s)) ;;
      r_xml <- lift (str_concat
        [ lit (nl ++ "    <RUN_SET>" ++ nl ++ "        <RUN alias=" ++ dq);
          run_alias; lit (dq ++ " center_name=" ++ dq); center_name;
          lit (dq ++ ">" ++ nl ++ "            <EXPERIMENT_REF accession=" ++ dq);
          exp_accession;
          lit (dq ++ "/>" ++ nl ++ "            <DATA_BLOCK>" ++ nl ++
               "                <FILES>" ++ nl ++
               "                    <FILE filename=" ++ dq);
          option_map basename fn;
          lit (dq ++ " filetype=" ++ dq); lit fn_type;
          lit (dq ++ " checksum_method=" ++ dq ++ "MD5" ++ dq ++ " checksum=" ++ dq);
          lit fn_checksum;
          lit (dq ++ " />" ++ nl ++ "                </FILES>" ++ nl ++
               "            </DATA_BLOCK>" ++ nl ++ "        </RUN>" ++ nl ++
               "    </RUN_SET>" ++ nl ++ "    ") ]) ;;
      center <- lift (match center_name with Some c => inr c | None => inl TypeError end) ;;
      submit_today "RUN" r_xml center true real false
  end.

(** The local variables of [cli] after the registrations; [run_stat] is
    [None] while it is unbound. *)
Record locals : Type := mkLocals {
  success : Z;
  exp_accession : option string;
  run_accession : option string;
  run_stat : option Z
}.

(** [cli], after [parse_args]. *)
Definition cli (args : Args) : M unit :=
  samp_list <- get_sample_list (study_accession args) (sample_name args) ;;
  ' (sample_stat, sample_accession) <-
    match samp_list with
    | first :: _ =>
        write_stderr ("[SKIP] Accession " ++ secondary_sample_accession first ++
                      " already exists. Moving on..." ++ nl) ;;
        ret (1%Z, Some (secondary_sample_accession first))
    | [] =>
        attributes <- lift (dict_comprehension (sample_attr args)) ;;
        register_sample (sample_name args) (sample_taxon args)
          (sample_center_name args) attributes (my_data_is_ready args) (modify args)
    end ;;
  vars <-
    (if (sample_stat >=? 0)%Z && truthy sample_accession && sample_only args then
       ret (mkLocals 1 None None None)
     else if (sample_stat >=? 0)%Z && negb (sample_only args) then
       instrument <- lift (replace_underscores (run_instrument args)) ;;
       attributes <- lift (dict_comprehension (experiment_attr args)) ;;
       source <- lift (replace_underscores (run_lib_source args)) ;;
       selection <- lift (replace_underscores (run_lib_selection args)) ;;
       let library_d :=
         mkLibrary source selection
           (_convert_library_strategy (run_lib_strategy args))
           (run_lib_protocol args) in
       ' (exp_stat, exp_accession) <-
         register_experiment (run_name args) (study_accession args)
           sample_accession instrument library_d (run_center_name args)
           attributes (my_data_is_ready args) ;;
       if (exp_stat >=? 0)%Z then
         let do_upload := if no_ftp args then false else true in
         ' (run_stat, run_accession) <-
           register_run (run_name args) (run_file_path args) exp_accession
             (run_center_name args) (run_file_type args)
             (my_data_is_ready args) do_upload ;;
         if (run_stat >=? 0)%Z && truthy run_accession
         then ret (mkLocals 1 exp_accession run_accession (Some run_stat))
         else ret (mkLocals 0 exp_accession run_accession (Some run_stat))
       else ret (mkLocals 0 exp_accession None None)
     else ret (mkLocals 0 None None None)) ;;
  write_stdout
    (join " "
       [ str_of_Z (success vars);
         str_of_Z (if my_data_is_ready args then 1 else 0);
         sample_name args;
         str_of_opt (run_name args);
         str_of_opt (run_file_path args);
         study_accession args;
         str_of_opt sample_accession;
         str_of_opt (exp_accession vars);
         str_of_opt (run_accession vars) ] ++ nl) ;;
  if (success vars =? 0)%Z then
    if sample_only args then raise (SystemExit 2)
    else
      match run_stat vars with
      | None => raise (UnboundLocalError "run_stat")
      | Some run_stat =>
          if (run_stat <? 0)%Z then raise (SystemExit (Z.abs run_stat))
          else raise (SystemExit 2)
      end
  else ret tt.

End Client.

Arguments world {E} _.
Arguments stderr {E} _.
Arguments stdout {E} _.
Arguments sent {E} _.
Arguments calls {E} _.


(** The exit status of the process for a run of [cli]: 0 when it returns,
    the argument of [sys.exit], and 1 for any other uncaught exception. *)
Definition exit_status (r : exn + unit) : Z :=
  match r with
  | inr _ => 0
  | inl (SystemExit code) => code
  | inl _ => 1
  end.

(** ** Definitions used by the statements *)

(** The number of runs of characters that are not white space in [s];
    [inword] tells whether a run is open when [s] starts. *)
Fixpoint words (inword : bool) (s : string) : nat :=
  match s with
  | EmptyString => if inword then 1 else 0
  | String c s' =>
      if isspace c then ((if inword then 1 else 0) + words false s')%nat
      else words true s'
  end.

(** An ERROR element matches one of the two duplicate rules. *)
Definition matches_duplicate (error : node) : bool :=
  contains phrase_exists (text error) || contains phrase_waiting (text error).

(** An ERROR element matches one of the three rules of the scan. *)
Definition matches_rule (error : node) : bool :=
  matches_duplicate error || contains phrase_upload (text error).

(** [s] without its last character when that is [c]. *)
Fixpoint strip_trailing (c : ascii) (s : string) : string :=
  match s with
  | EmptyString => EmptyString
  | String d EmptyString => if Ascii.eqb d c then EmptyString else s
  | String d s' => String d (strip_trailing c s')
  end.

(** [s] without its first character when that is [c]. *)
Definition strip_leading (c : ascii) (s : string) : string :=
  match s with
  | String d s' => if Ascii.eqb d c then s' else s
  | EmptyString => EmptyString
  end.

(** The accession of a duplicate as the specification words it: the token
    with the trailing period and the surrounding quotes stripped. *)
Definition spec_stripped_token (tok : string) : string :=
  strip_trailing dquote (strip_leading dquote (strip_trailing "."%char tok)).

(** The state a computation leaves, and the value it gives. *)
Definition value_of {E : Env} {A : Type} (r : (exn + A) * State E) : exn + A := fst r.
Definition state_of {E : Env} {A : Type} (r : (exn + A) * State E) : State E := snd r.

(** [s] with [log] added to the diagnostic stream. *)
Definition with_stderr {E : Env} (s : State E) (log : list string) : State E :=
  mkState E (world s) (stderr s ++ log) (stdout s) (sent s) (calls s).

(** [s'] differs from [s] in the diagnostic stream at most. *)
Definition quiet {E : Env} (s s' : State E) : Prop :=
  world s' = world s /\ stdout s' = stdout s /\
  sent s' = sent s /\ calls s' = calls s.

(** The pairs [handle_response] may return. *)
Definition well_formed_outcome (code : Z) (acc : option string) : Prop :=
  (code = OK \/ code = DUPLICATE \/ code = FATAL \/ code = MISSING_UPLOAD) /\
  ((code = FATAL \/ code = MISSING_UPLOAD) -> acc = None) /\
  (acc <> None -> code = OK \/ code = DUPLICATE).

(** The diagnostic of [handle_response] for a response it cannot read. *)
Definition fatal_report (headline content : string) : string :=
  join nl
    [ stars; headline;
      "I don't know how to handle this. For your information, the response is below:";
      stars; content; stars ].

(** A computation adds to the call log only entries that satisfy [P]. *)
Definition logs_only {E : Env} {A : Type} (P : call -> Prop) (m : M E A) : Prop :=
  forall s, exists new,
    calls (snd (m s)) = (calls s ++ new)%list /\ Forall P new.

(** A call that is no sample registration and, when it is an experiment
    registration, was entered with the sample accession [acc]. *)
Definition reuses (acc : string) (c : call) : Prop :=
  is_register_sample c = false /\
  forall a, experiment_sample c = Some a -> a = Some acc.

(** The line [submit_today] writes when a release is classified OK. *)
Definition released_line (submit_type : string) (accession : option string) : string :=
  "[INFO] " ++ submit_type ++ " released successfully: " ++ str_of_opt accession ++ nl.

(** ** A scripted world

    A test double of the collaborators: the portal answers with a fixed
    body, the drop-box with the replies of a list, one per request, and
    the parser knows the documents below. *)

Record script : Type := mkScript {
  portal_body : string;
  replies : list response;
  ftp_fails : option string;
  clock : string
}.

Definition attr (k v : string) : string := k ++ "=" ++ dq ++ v ++ dq.

Definition error_duplicate : string :=
  "In sample, alias: " ++ dq ++ "s1" ++ dq ++
  ". The object being added already exists in the submission account with accession: " ++
  dq ++ "ABC123" ++ dq ++ ".".

Definition error_dotted : string :=
  "The object being added already exists in the submission account with accession: " ++
  dq ++ "AB.C123" ++ dq ++ ".".

Definition error_upload : string :=
  "In run, alias: r1. File r1.bam does not exist in the upload area".

Definition error_both : string :=
  "Submission SUB1 already exists in the submission account with accession: ERA1 but r1.bam does not exist in the upload area".

Definition error_other : string := "Invalid taxon id".

Definition element (name content : string) : string :=
  "<" ++ name ++ ">" ++ content ++ "</" ++ name ++ ">".

Definition body_ok : string :=
  "<RECEIPT " ++ attr "success" "true" ++ "><SAMPLE " ++ attr "accession" "ERS0001" ++
  " " ++ attr "alias" "s1" ++ "/></RECEIPT>".
Definition body_duplicate : string := element "RECEIPT" (element "ERROR" error_duplicate).
Definition body_dotted : string := element "RECEIPT" (element "ERROR" error_dotted).
Definition body_upload_then_duplicate : string :=
  element "RECEIPT" (element "ERROR" error_upload ++ element "ERROR" error_duplicate).
Definition body_both : string := element "RECEIPT" (element "ERROR" error_both).
Definition body_other : string := element "RECEIPT" (element "ERROR" error_other).

Definition error_node (t : string) : node := Tag "ERROR" [] [NavigableString t].

Definition scripted_documents : list (string * list node) :=
  [ (body_ok,
      [Tag "RECEIPT" [("success", "true")]
         [Tag "SAMPLE" [("accession", "ERS0001"); ("alias", "s1")] []]]);
    (body_duplicate, [Tag "RECEIPT" [] [error_node error_duplicate]]);
    (body_dotted, [Tag "RECEIPT" [] [error_node error_dotted]]);
    (body_upload_then_duplicate,
      [Tag "RECEIPT" [] [error_node error_upload; error_node error_duplicate]]);
    (body_both, [Tag "RECEIPT" [] [error_node error_both]]);
    (body_other, [Tag "RECEIPT" [] [error_node error_other]]) ].

Fixpoint scripted_bs_in (table : list (string * list node)) (content : string)
    : list node :=
  match table with
  | [] => []
  | (body, doc) :: rest =>
      if String.eqb body content then doc else scripted_bs_in rest content
  end.

Definition scripted_bs : string -> list node := scripted_bs_in scripted_documents.

Definition sample_s1 : sample_record := mkSample "SAMEA0001" "" "s1" "ERS0001".

Definition scripted_json_loads (body : string) : exn + list sample_record :=
  if String.eqb body "[]" then inr []
  else if String.eqb body "[s1]" then inr [sample_s1]
  else inl (ExternalError "JSONDecodeError").

Definition scripted_post (url : string) (files : list (string * string))
    (w : script) : (exn + response) * script :=
  match replies w with
  | [] => (inl (ExternalError "ConnectionError"), w)
  | r :: rest => (inr r, mkScript (portal_body w) rest (ftp_fails w) (clock w))
  end.

Definition Scripted : Env :=
  mkEnv script
    (fun _ w => (inr (portal_body w), w))
    scripted_json_loads
    scripted_post
    (fun w => (ftp_fails w, w))
    (fun _ _ w => (None, w))
    (fun w => (None, w))
    (fun fn _ => match fn with Some _ => inr "d41d8cd98f00b204e9800998ecf8427e" | None => inl TypeError end)
    clock
    scripted_bs.

Definition start (w : script) : State Scripted := mkState Scripted w [] [] [] [].

(** The arguments of a full run. *)
Definition full_args : Args :=
  mkArgs false true false false "PRJEB0001" (Some [("collection date", "2020")])
    "s1" "CENTRE" "2697049" (Some [])
    (Some "r1") (Some "/data/r1.bam") "bam" (Some "CENTRE") (Some "Illumina_MiSeq")
    (Some "VIRAL_RNA") (Some "PCR") (Some "AMPLICON") "".

(** Worlds for the runs evaluated below. *)
Definition quiet_world : script := mkScript "[]" [] None "2020-03-01".

Definition release_fails : script :=
  mkScript "[]" [mkResponse 200 body_ok; mkResponse 404 "Not Found"] None "2020-03-01".

Definition sample_known : script :=
  mkScript "[s1]" [mkResponse 200 body_ok; mkResponse 200 body_ok] None "2020-03-01".

Definition sample_refused : script :=
  mkScript "[]" [mkResponse 500 "Internal Server Error"] None "2020-03-01".

(** A centre name that holds markup. *)
Definition markup_centre : string :=
  "X" ++ dq ++ "><ACTION><HOLD HoldUntilDate=" ++ dq ++ "2099-01-01" ++ dq ++
  " /></ACTION><Y a=" ++ dq.

(** * Properties *)

(** ** Strings *)

Section StringFacts.

Lemma prefix_app (p s : string) :
  prefix p s = true -> exists b, s = p ++ b.
Proof.
  revert s; induction p as [|a p IH]; intros s H.
  - exists s; reflexivity.
  - destruct s as [|c s]; simpl in H; [discriminate|].
    destruct (ascii_dec a c) as [->|]; [|discriminate].
    destruct (IH s H) as [b ->]. exists b; reflexivity.
Qed.

Lemma contains_app (p s : string) :
  contains p s = true -> exists a b, s = a ++ p ++ b.
Proof.
  induction s as [|c s IH]; intros H.
  - destruct p; [exists "", ""; reflexivity | discriminate].
  - change (contains p (String c s))
      with (prefix p (String c s) || contains p s) in H.
    apply orb_true_iff in H as [H|H].
    + destruct (prefix_app _ _ H) as [b Hb]. exists "", b; exact Hb.
    + destruct (IH H) as (a & b & ->). exists (String c a), b; reflexivity.
Qed.

Lemma is_empty_snoc (cur : string) (c : ascii) :
  is_empty (cur ++ String c "") = false.
Proof. destruct cur; reflexivity. Qed.

Lemma length_split_from (cur s : string) :
  List.length (split_from cur s) = words (negb (is_empty cur)) s.
Proof.
  revert cur; induction s as [|c s IH]; intros cur; simpl.
  - destruct (is_empty cur); reflexivity.
  - destruct (isspace c).
    + destruct (is_empty cur); simpl; rewrite IH; reflexivity.
    + rewrite IH, is_empty_snoc; reflexivity.
Qed.

Lemma words_nonspace (f : bool) (c : ascii) (s : string) :
  isspace c = false -> words f (String c s) = words true s.
Proof. intros H; simpl; rewrite H; reflexivity. Qed.

Lemma words_space (c : ascii) (s : string) :
  isspace c = true -> words true (String c s) = S (words false s).
Proof. intros H; simpl; rewrite H; reflexivity. Qed.

Lemma append_cons (c : ascii) (a b : string) : String c a ++ b = String c (a ++ b).
Proof. reflexivity. Qed.

Ltac count_words :=
  repeat first
    [ rewrite append_cons
    | rewrite words_nonspace by (vm_compute; reflexivity)
    | rewrite words_space by (vm_compute; reflexivity) ].

Lemma words_app_ge (a r : string) (f : bool) :
  exists f', (words f' r <= words f (a ++ r))%nat.
Proof.
  revert f; induction a as [|c a IH]; intros f; simpl.
  - exists f; lia.
  - destruct (isspace c).
    + destruct (IH false) as [f' H]. exists f'; lia.
    + apply IH.
Qed.

Lemma split_exists_nonempty (t : string) :
  contains phrase_exists t = true -> split t <> [].
Proof.
  intros H. destruct (contains_app _ _ H) as (a & b & ->).
  assert (L : (1 <= List.length (split (a ++ phrase_exists ++ b)))%nat).
  { unfold split. rewrite length_split_from.
    destruct (words_app_ge a (phrase_exists ++ b) (negb (is_empty ""))) as [f' Hf].
    eapply Nat.le_trans; [|exact Hf].
    unfold phrase_exists; count_words; lia. }
  intros Heq; rewrite Heq in L; simpl in L; lia.
Qed.

Lemma split_waiting_fifth (t : string) :
  contains phrase_waiting t = true ->
  exists tok, nth_error (split t) 4 = Some tok.
Proof.
  intros H. destruct (contains_app _ _ H) as (a & b & ->).
  assert (L : (4 < List.length (split (a ++ phrase_waiting ++ b)))%nat).
  { unfold split. rewrite length_split_from.
    destruct (words_app_ge a (phrase_waiting ++ b) (negb (is_empty ""))) as [f' Hf].
    eapply Nat.lt_le_trans; [|exact Hf].
    unfold phrase_waiting; count_words; lia. }
  apply nth_error_Some in L.
  destruct (nth_error (split (a ++ phrase_waiting ++ b)) 4) as [tok|]; [|contradiction].
  exists tok; reflexivity.
Qed.

Lemma prefix_here (p b : string) : prefix p (p ++ b) = true.
Proof.
  induction p as [|c p IH]; simpl; [destruct b; reflexivity|].
  destruct (ascii_dec c c) as [_|n]; [exact IH | contradiction n; reflexivity].
Qed.

Lemma contains_prefix (p s : string) : prefix p s = true -> contains p s = true.
Proof.
  intros H. destruct s as [|c s].
  - change (prefix p "" || false = true). rewrite H; reflexivity.
  - change (prefix p (String c s) || contains p s = true). rewrite H; reflexivity.
Qed.

Lemma contains_intro (a p b : string) : contains p (a ++ p ++ b) = true.
Proof.
  induction a as [|c a IH].
  - change ("" ++ p ++ b) with (p ++ b). apply contains_prefix, prefix_here.
  - change (prefix p (String c (a ++ p ++ b)) || contains p (a ++ p ++ b) = true).
    rewrite IH. apply orb_true_r.
Qed.

Lemma append_assoc (a b c : string) : (a ++ b) ++ c = a ++ b ++ c.
Proof. induction a as [|x a IH]; simpl; [reflexivity | rewrite IH; reflexivity]. Qed.

(** A string that contains [p ++ q] contains [p]. *)
Lemma contains_shorter (p q s : string) :
  contains (p ++ q) s = true -> contains p s = true.
Proof.
  intros H. destruct (contains_app _ _ H) as (a & b & ->).
  rewrite append_assoc. apply contains_intro.
Qed.

Lemma count_occ_cons (p : string) (d : ascii) (s : string) :
  count_occ p (String d s) =
    ((if prefix p (String d s) then 1 else 0) + count_occ p s)%nat.
Proof. reflexivity. Qed.

Lemma prefix_cons_ne (a d : ascii) (p s : string) :
  Ascii.eqb a d = false -> prefix (String a p) (String d s) = false.
Proof.
  intros H. simpl. destruct (ascii_dec a d) as [->|_]; [|reflexivity].
  rewrite Ascii.eqb_refl in H; discriminate.
Qed.

Lemma prefix_cons_eq (a : ascii) (p s : string) :
  prefix (String a p) (String a s) = prefix p s.
Proof.
  simpl. destruct (ascii_dec a a) as [_|n]; [reflexivity | contradiction n; reflexivity].
Qed.

(** Text without the first character of a pattern holds no occurrence of it. *)
Lemma count_occ_skip (a : ascii) (p c x : string) :
  has_char a c = false ->
  count_occ (String a p) (c ++ x) = count_occ (String a p) x.
Proof.
  induction c as [|d c IH]; intros H; [reflexivity|].
  simpl in H. apply orb_false_iff in H as [Hd Hc].
  rewrite append_cons, count_occ_cons, prefix_cons_ne, (IH Hc); [reflexivity|].
  rewrite Ascii.eqb_sym; exact Hd.
Qed.

Lemma remove_char_app (c : ascii) (x y : string) :
  remove_char c (x ++ y) = remove_char c x ++ remove_char c y.
Proof.
  induction x as [|d x IH]; simpl; [reflexivity|].
  destruct (Ascii.eqb d c); simpl; rewrite IH; reflexivity.
Qed.

Lemma remove_char_absent (c : ascii) (x : string) :
  has_char c x = false -> remove_char c x = x.
Proof.
  induction x as [|d x IH]; simpl; intros H; [reflexivity|].
  apply orb_false_iff in H as [Hd Hx]. rewrite Hd, (IH Hx). reflexivity.
Qed.

Lemma strip_trailing_snoc (c : ascii) (x : string) :
  strip_trailing c (x ++ String c "") = x.
Proof.
  induction x as [|d x IH]; simpl.
  - rewrite Ascii.eqb_refl. reflexivity.
  - rewrite IH. destruct (x ++ String c "") eqn:Hx; [|reflexivity].
    destruct x; discriminate.
Qed.

End StringFacts.

(** ** The response classifier *)

Ltac outcome :=
  unfold well_formed_outcome, DUPLICATE, OK, FATAL, MISSING_UPLOAD;
  repeat split; intros; auto; try lia; try congruence;
  try (intuition (discriminate || lia)).

Section Classifier.

Variable E : Env.

Lemma quiet_refl (s : State E) : quiet s s.
Proof. repeat split. Qed.

Lemma quiet_trans (s1 s2 s3 : State E) : quiet s1 s2 -> quiet s2 s3 -> quiet s1 s3.
Proof.
  unfold quiet; intros (a & b & c & d) (a' & b' & c' & d').
  repeat split; congruence.
Qed.

Lemma quiet_write_stderr (s : State E) (msg : string) :
  quiet s (snd (write_stderr E msg s)).
Proof. repeat split. Qed.

(** The scan of the ERROR elements never raises, writes to the diagnostic
    stream only, and leaves a duplicate with an accession or a failure
    without one. *)
Lemma scan_errors_total (errors : list node) (s : State E) :
  exists code acc s',
    scan_errors E errors s = (inr (code, acc), s') /\ quiet s s' /\
    ((code = DUPLICATE /\ acc <> None) \/
     ((code = MISSING_UPLOAD \/ code = FATAL) /\ acc = None)).
Proof.
  induction errors as [|error rest IH]; simpl.
  - exists FATAL, None, s. split; [reflexivity|]. split; [apply quiet_refl|]. right; auto.
  - destruct (contains phrase_exists (text error)) eqn:He.
    + pose proof (split_exists_nonempty _ He) as Hne.
      unfold bind, lift, index_last.
      destruct (split (text error)) as [|t0 l] eqn:Hs; [contradiction|].
      eexists _, _, _. split; [reflexivity|]. split; [apply quiet_write_stderr|].
      left; split; [reflexivity|discriminate].
    + destruct (contains phrase_waiting (text error)) eqn:Hw.
      * destruct (split_waiting_fifth _ Hw) as [tok Htok].
        unfold bind, lift, index_nth. rewrite Htok.
        eexists _, _, _. split; [reflexivity|]. split; [apply quiet_write_stderr|].
        left; split; [reflexivity|discriminate].
      * destruct (contains phrase_upload (text error)).
        -- exists MISSING_UPLOAD, None, s.
           split; [reflexivity|]. split; [apply quiet_refl|]. right; auto.
        -- exact IH.
Qed.

(** Elements that match no rule are passed over. *)
Lemma scan_errors_skip (pre rest : list node) (s : State E) :
  (forall x, In x pre -> matches_rule x = false) ->
  scan_errors E (pre ++ rest)%list s = scan_errors E rest s.
Proof.
  induction pre as [|x pre IH]; intros H; [reflexivity|].
  simpl. pose proof (H x (or_introl eq_refl)) as Hx.
  unfold matches_rule, matches_duplicate in Hx.
  apply orb_false_iff in Hx as [Hx Hu]. apply orb_false_iff in Hx as [He Hw].
  rewrite He, Hw, Hu. apply IH. intros y Hy; apply H; right; exact Hy.
Qed.

(** [handle_response] never raises and returns a well-formed outcome. *)
Lemma handle_response_total (status : Z) (content : string)
    (accession : option string) (s : State E) :
  exists code acc s',
    handle_response E status content accession s = (inr (code, acc), s') /\
    quiet s s' /\ well_formed_outcome code acc.
Proof.
  unfold handle_response.
  destruct (status =? 200)%Z; simpl.
  - destruct (0 <? List.length (findAll "ERROR" (bs E content)))%nat.
    + destruct (scan_errors_total (findAll "ERROR" (bs E content)) s)
        as (code & acc & s' & Hscan & Hq & Hout).
      unfold bind. rewrite Hscan.
      destruct Hout as [[-> Hacc]|[Hcode ->]].
      * destruct acc as [a|]; [|contradiction]. simpl.
        rewrite andb_false_r.
        eexists _, _, _; split; [reflexivity|]. split; [exact Hq|outcome].
      * simpl. destruct Hcode as [->| ->]; simpl;
          (eexists _, _, _; split; [reflexivity|]; split;
           [first [exact Hq | eapply quiet_trans; [exact Hq|apply quiet_write_stderr]]
           |outcome]).
    + eexists _, _, _; split; [reflexivity|]. split; [apply quiet_refl|outcome].
  - eexists _, _, _; split; [reflexivity|]. split; [apply quiet_write_stderr|outcome].
Qed.

End Classifier.

Lemma fatal_report_holds_body (headline content : string) :
  contains content (fatal_report headline content) = true.
Proof.
  replace (fatal_report headline content)
    with ((stars ++ nl ++ headline ++ nl ++
           "I don't know how to handle this. For your information, the response is below:" ++
           nl ++ stars ++ nl) ++ content ++ nl ++ stars)
    by (unfold fatal_report; cbn [join]; repeat rewrite append_assoc; reflexivity).
  apply contains_intro.
Qed.

(** C5. For every HTTP status other than 200, every body and every
    expected tag, [handle_response] returns the FATAL outcome (-1) with no
    accession, and writes to the diagnostic stream one report that holds
    the whole body; so a 404 is FATAL whatever its body. *)
Theorem handle_response_not_200 (E : Env) (status : Z) (content : string)
    (accession : option string) (s : State E) :
  status <> 200%Z ->
  let report :=
    fatal_report ("ENA responded with HTTP " ++ str_of_Z status ++ ".") content in
  handle_response E status content accession s =
    (inr (FATAL, None), with_stderr s [report]) /\
  contains content report = true.
Proof.
  intros H report. split; [|apply fatal_report_holds_body].
  unfold handle_response.
  destruct (Z.eqb_spec status 200) as [Heq|_]; [contradiction|].
  reflexivity.
Qed.

Lemma handle_response_not_200_witness :
  404%Z <> 200%Z /\
  handle_response Scripted 404 body_ok (Some "SAMPLE") (start quiet_world) =
    (inr (FATAL, None),
     with_stderr (start quiet_world)
       [fatal_report ("ENA responded with HTTP 404.") body_ok]).
Proof.
  split; [lia|].
  exact (proj1 (handle_response_not_200 Scripted 404 body_ok (Some "SAMPLE")
                  (start quiet_world) ltac:(lia))).
Defined.

(** C10. For every HTTP status and every body, [handle_response] returns a
    pair whose code is one of -3, -1, 0 and 1; with -1 (FATAL) and -3
    (MISSING_UPLOAD) the accession is [None], and an accession is only
    returned with 0 (OK) or 1 (DUPLICATE). *)
Theorem handle_response_outcomes (E : Env) (status : Z) (content : string)
    (accession : option string) (s : State E) :
  exists code acc,
    value_of (handle_response E status content accession s) = inr (code, acc) /\
    (code = (-3)%Z \/ code = (-1)%Z \/ code = 0%Z \/ code = 1%Z) /\
    ((code = (-1)%Z \/ code = (-3)%Z) -> acc = None) /\
    (acc <> None -> code = 0%Z \/ code = 1%Z).
Proof.
  destruct (handle_response_total E status content accession s)
    as (code & acc & s' & Hr & _ & Hcodes & Hnone & Hsome).
  exists code, acc. unfold value_of. rewrite Hr.
  unfold OK, DUPLICATE, FATAL, MISSING_UPLOAD in *.
  repeat split; intuition.
Qed.

(** On a token that is an accession between quotes followed by a period,
    removing every quote and period is stripping the surrounding quotes
    and the trailing period. *)
Lemma quoted_token_stripped (a : string) :
  has_char dquote a = false -> has_char "."%char a = false ->
  remove_char "."%char (remove_char dquote (dq ++ a ++ dq ++ ".")) = a /\
  spec_stripped_token (dq ++ a ++ dq ++ ".") = a.
Proof.
  intros Hq Hp. split.
  - rewrite !remove_char_app, (remove_char_absent _ _ Hq), (remove_char_absent _ _ Hp).
    simpl. clear. induction a as [|c a IH]; simpl; [reflexivity | rewrite IH; reflexivity].
  - unfold spec_stripped_token.
    replace (dq ++ a ++ dq ++ ".") with ((dq ++ a ++ dq) ++ ".")
      by (rewrite !append_assoc; reflexivity).
    rewrite strip_trailing_snoc. simpl. apply strip_trailing_snoc.
Qed.

(** C4, as amended. For every 200 response in which the first ERROR
    element that matches one of the three rules has a text containing
    "already exists in the submission account with accession:",
    [handle_response] yields DUPLICATE (1) with the last token of that text
    between white space, every double quote and every period removed. *)
Theorem handle_response_duplicate (E : Env) (content : string)
    (accession : option string) (s : State E) (pre post : list node) (error : node) :
  findAll "ERROR" (bs E content) = (pre ++ error :: post)%list ->
  (forall x, In x pre -> matches_rule x = false) ->
  contains phrase_exists (text error) = true ->
  value_of (handle_response E 200 content accession s) =
    inr (DUPLICATE,
         Some (remove_char "."%char
                 (remove_char dquote (last (split (text error)) "")))).
Proof.
  intros Hall Hpre Herr. unfold value_of, handle_response. simpl.
  rewrite Hall.
  replace (0 <? List.length (pre ++ error :: post)%list)%nat with true
    by (symmetry; apply Nat.ltb_lt; rewrite length_app; simpl; lia).
  unfold bind at 1. rewrite (scan_errors_skip E pre (error :: post) s Hpre).
  simpl. rewrite Herr.
  pose proof (split_exists_nonempty _ Herr) as Hne.
  unfold bind, lift, index_last.
  destruct (split (text error)) as [|t0 l]; [contradiction|].
  simpl. rewrite andb_false_r. reflexivity.
Qed.

Lemma handle_response_duplicate_witness :
  value_of (handle_response Scripted 200 body_duplicate None (start quiet_world)) =
    inr (DUPLICATE, Some "ABC123").
Proof.
  apply (handle_response_duplicate Scripted body_duplicate None (start quiet_world)
           [] [] (error_node error_duplicate)).
  - reflexivity.
  - intros x [].
  - reflexivity.
Defined.

(** C4 as stated fails twice: an earlier ERROR element that matches the
    upload rule ends the scan before the duplicate is seen, and a period
    inside the token is removed with the trailing one. *)
Lemma handle_response_duplicate_counterexample :
  (In (error_node error_duplicate)
      (findAll "ERROR" (bs Scripted body_upload_then_duplicate)) /\
   contains phrase_exists (text (error_node error_duplicate)) = true /\
   value_of (handle_response Scripted 200 body_upload_then_duplicate None
               (start quiet_world)) = inr (MISSING_UPLOAD, None)) /\
  (In (error_node error_dotted) (findAll "ERROR" (bs Scripted body_dotted)) /\
   contains phrase_exists (text (error_node error_dotted)) = true /\
   spec_stripped_token (last (split (text (error_node error_dotted))) "") = "AB.C123" /\
   value_of (handle_response Scripted 200 body_dotted None (start quiet_world)) =
     inr (DUPLICATE, Some "ABC123")).
Proof.
  split; [split; [right; left; reflexivity | split; reflexivity]|].
  split; [left; reflexivity | repeat split; reflexivity].
Qed.

(** C7, as amended. For every 200 response with an ERROR element whose
    text contains "does not exist in the upload area", when neither that
    element nor an earlier one matches a duplicate rule, [handle_response]
    returns MISSING_UPLOAD (-3) with no accession. *)
Theorem handle_response_missing_upload (E : Env) (content : string)
    (accession : option string) (s : State E) (pre post : list node) (error : node) :
  findAll "ERROR" (bs E content) = (pre ++ error :: post)%list ->
  (forall x, In x pre -> matches_duplicate x = false) ->
  matches_duplicate error = false ->
  contains phrase_upload (text error) = true ->
  value_of (handle_response E 200 content accession s) = inr (MISSING_UPLOAD, None).
Proof.
  intros Hall Hpre Hdup Hup. unfold value_of, handle_response. simpl.
  rewrite Hall.
  replace (0 <? List.length (pre ++ error :: post)%list)%nat with true
    by (symmetry; apply Nat.ltb_lt; rewrite length_app; simpl; lia).
  assert (Hscan : scan_errors E (pre ++ error :: post)%list s = (inr (MISSING_UPLOAD, None), s)).
  { clear Hall. induction pre as [|x pre IH]; simpl.
    - unfold matches_duplicate in Hdup. apply orb_false_iff in Hdup as [-> ->].
      rewrite Hup. reflexivity.
    - pose proof (Hpre x (or_introl eq_refl)) as Hx.
      unfold matches_duplicate in Hx. apply orb_false_iff in Hx as [-> ->].
      destruct (contains phrase_upload (text x)); [reflexivity|].
      apply IH. intros y Hy; apply Hpre; right; exact Hy. }
  unfold bind. rewrite Hscan. reflexivity.
Qed.

Lemma handle_response_missing_upload_witness :
  value_of (handle_response Scripted 200 body_upload_then_duplicate None
              (start quiet_world)) = inr (MISSING_UPLOAD, None).
Proof.
  apply (handle_response_missing_upload Scripted body_upload_then_duplicate None
           (start quiet_world) [] [error_node error_duplicate] (error_node error_upload)).
  - reflexivity.
  - intros x [].
  - reflexivity.
  - reflexivity.
Defined.

(** C7 as stated fails when the element that names the upload area also
    matches a duplicate rule: no error comes earlier, and the outcome is
    DUPLICATE. *)
Lemma handle_response_missing_upload_counterexample :
  findAll "ERROR" (bs Scripted body_both) = ([] ++ error_node error_both :: [])%list /\
  contains phrase_upload (text (error_node error_both)) = true /\
  value_of (handle_response Scripted 200 body_both None (start quiet_world)) =
    inr (DUPLICATE, Some "area") /\
  value_of (handle_response Scripted 200 body_both None (start quiet_world)) <>
    inr (MISSING_UPLOAD, None).
Proof.
  repeat split; try reflexivity. vm_compute. discriminate.
Qed.

(** C8. For every 200 response without ERROR elements [handle_response]
    returns OK (0) and raises nothing; with an expected tag, the accession
    is the [accession] attribute of the first element of that name, and
    [None] when there is no such element or no such attribute. *)
Theorem handle_response_no_errors (E : Env) (content : string)
    (accession : option string) (s : State E) :
  findAll "ERROR" (bs E content) = [] ->
  exists acc,
    handle_response E 200 content accession s = (inr (OK, acc), s) /\
    (accession = None -> acc = None) /\
    (forall tag, accession = Some tag -> tag <> "" ->
       acc = match findAll tag (bs E content) with
             | Tag _ attrs _ :: _ => dict_get attrs "accession"
             | _ => None
             end).
Proof.
  intros H. unfold handle_response. simpl. rewrite H. simpl.
  eexists; split; [reflexivity|]. split.
  - intros ->; reflexivity.
  - intros tag -> Htag. destruct tag as [|c tag]; [contradiction|].
    simpl. unfold try_parse_accession, find.
    destruct (findAll (String c tag) (bs E content)) as [|[t|nm at' cs] l]; reflexivity.
Qed.

Lemma handle_response_no_errors_witness :
  exists acc,
    handle_response Scripted 200 body_ok (Some "SAMPLE") (start quiet_world) =
      (inr (OK, acc), start quiet_world) /\
    (Some "SAMPLE" = None -> acc = None) /\
    (forall tag, Some "SAMPLE" = Some tag -> tag <> "" ->
       acc = match findAll tag (bs Scripted body_ok) with
             | Tag _ attrs _ :: _ => dict_get attrs "accession"
             | _ => None
             end).
Proof.
  apply (handle_response_no_errors Scripted body_ok (Some "SAMPLE") (start quiet_world)).
  reflexivity.
Defined.

(** ** The vocabulary normaliser *)

(** The models of a platform are tried in table order: the first key found
    in the name decides. *)
Lemma scan_models_first (name : string) (pre post : list (string * string))
    (k v : string) :
  (forall k' v', In (k', v') pre -> contains (lower k') name = false) ->
  contains (lower k) name = true ->
  scan_models name (pre ++ (k, v) :: post)%list = Some v.
Proof.
  intros Hpre Hk. induction pre as [|[k' v'] pre IH]; simpl.
  - rewrite Hk; reflexivity.
  - rewrite (Hpre k' v' (or_introl eq_refl)). apply IH.
    intros k2 v2 H2; apply (Hpre k2 v2); right; exact H2.
Qed.

Lemma scan_models_none (name : string) (models : list (string * string)) :
  (forall k v, In (k, v) models -> contains (lower k) name = false) ->
  scan_models name models = None.
Proof.
  induction models as [|[k v] models IH]; intros H; simpl; [reflexivity|].
  rewrite (H k v (or_introl eq_refl)). apply IH.
  intros k2 v2 H2; apply (H k2 v2); right; exact H2.
Qed.

(** A name in which no key of the table is found gives [(None, None)]. *)
Lemma convert_platform_unmatched (instrument_name : string) :
  (forall make models k v,
      In (make, models) valid_enums -> In (k, v) models ->
      contains (lower k)
        (lower (replace_char "_"%char " "%char instrument_name)) = false) ->
  _convert_platform instrument_name = (None, None).
Proof.
  intros H. unfold _convert_platform.
  set (name := lower (replace_char "_"%char " "%char instrument_name)) in *.
  assert (G : forall enums, incl enums valid_enums -> scan_makes name enums = (None, None)).
  { induction enums as [|[make models] enums IH]; intros Hin; simpl; [reflexivity|].
    rewrite scan_models_none.
    - apply IH. intros x Hx; apply Hin; right; exact Hx.
    - intros k v Hkv. apply (H make models k v); [|exact Hkv].
      apply Hin; left; reflexivity. }
  apply G. apply incl_refl.
Qed.

(** The pair returned is that of the first entry, in table order, whose
    key is found in the normalised name. *)
Lemma convert_platform_first_match (instrument_name make k v : string)
    (before after : list (string * list (string * string)))
    (pre post : list (string * string)) :
  valid_enums = (before ++ (make, (pre ++ (k, v) :: post)%list) :: after)%list ->
  let name := lower (replace_char "_"%char " "%char instrument_name) in
  (forall make' models k' v',
      In (make', models) before -> In (k', v') models ->
      contains (lower k') name = false) ->
  (forall k' v', In (k', v') pre -> contains (lower k') name = false) ->
  contains (lower k) name = true ->
  _convert_platform instrument_name = (Some make, Some v).
Proof.
  intros Htable name Hbefore Hpre Hk. unfold _convert_platform. fold name.
  rewrite Htable. clear Htable.
  induction before as [|[make' models] before IH]; simpl.
  - rewrite (scan_models_first name pre post k v Hpre Hk). reflexivity.
  - rewrite scan_models_none.
    + apply IH. intros m ms k' v' Hin; apply (Hbefore m ms k' v'); right; exact Hin.
    + intros k' v' Hin. apply (Hbefore make' models k' v'); [left; reflexivity|exact Hin].
Qed.

Example convert_platform_hiseq_2500 :
  _convert_platform "Illumina_HiSeq_2500" = (Some "ILLUMINA", Some "Illumina HiSeq 2500").
Proof. reflexivity. Qed.

Example convert_platform_generic_hiseq :
  _convert_platform "HISEQ" = (Some "ILLUMINA", Some "unspecified").
Proof. reflexivity. Qed.

Example convert_platform_gridion :
  _convert_platform "gridion" = (Some "OXFORD_NANOPORE", Some "GridION").
Proof. reflexivity. Qed.

Example convert_platform_unknown :
  _convert_platform "PacBio RS II" = (None, None).
Proof. reflexivity. Qed.

(** The model "Illumina Genome Analyzer II" of the table is never returned:
    its key is only tried after the shorter key "Genome Analyzer". *)
Lemma convert_platform_never_genome_analyzer_II (instrument_name : string) :
  snd (_convert_platform instrument_name) <> Some "Illumina Genome Analyzer II".
Proof.
  unfold _convert_platform.
  set (name := lower (replace_char "_"%char " "%char instrument_name)).
  assert (Hlong : contains "genome analyzer ii" name = true ->
                  contains "genome analyzer" name = true)
    by apply (contains_shorter "genome analyzer" " ii").
  cbv beta iota delta [scan_makes scan_models valid_enums].
  repeat match goal with
         | |- context [contains (lower ?k) name] =>
             let k' := eval vm_compute in (lower k) in
             change (lower k) with k'
         end.
  repeat match goal with
         | |- context [if contains ?p name then _ else _] =>
             destruct (contains p name) eqn:?; [cbn; try discriminate|]
         end;
  try (cbn; discriminate).
  specialize (Hlong eq_refl). discriminate.
Qed.

(** C3. The name "Illumina_Genome_Analyzer_II" contains the key
    "Genome Analyzer II", to which the table gives the model
    "Illumina Genome Analyzer II", and [_convert_platform] returns the
    model of the shorter key "Genome Analyzer" instead. *)
Theorem convert_platform_genome_analyzer_II :
  contains (lower "Genome Analyzer II")
    (lower (replace_char "_"%char " "%char "Illumina_Genome_Analyzer_II")) = true /\
  (exists models, In ("ILLUMINA", models) valid_enums /\
     In ("Genome Analyzer II", "Illumina Genome Analyzer II") models) /\
  _convert_platform "Illumina_Genome_Analyzer_II" =
    (Some "ILLUMINA", Some "Illumina Genome Analyzer").
Proof.
  split; [reflexivity|]. split; [|reflexivity].
  eexists; split; [left; reflexivity|].
  do 3 right; left; reflexivity.
Qed.

(** ** Submission envelopes *)

Ltac count_head :=
  repeat first
    [ rewrite append_cons
    | rewrite count_occ_cons
    | rewrite prefix_cons_ne by (vm_compute; reflexivity)
    | rewrite prefix_cons_eq ].

(** The envelope of modify mode, with the caller's centre name apart. *)
Lemma add_today_modify_shape :
  exists head tail,
    (forall center_name date,
        _add_today center_name true date = head ++ center_name ++ tail) /\
    count_occ "<ACTION>" head = 0%nat /\ count_occ "<ACTION>" tail = 1%nat /\
    count_occ "<MODIFY/>" head = 0%nat /\ count_occ "<MODIFY/>" tail = 1%nat /\
    count_occ "<HOLD" head = 0%nat /\ count_occ "<HOLD" tail = 0%nat /\
    count_occ "<ADD" head = 0%nat /\ count_occ "<ADD" tail = 0%nat /\
    count_occ "HoldUntilDate" head = 0%nat /\ count_occ "HoldUntilDate" tail = 0%nat.
Proof.
  exists (nl ++ "    <SUBMISSION center_name=" ++ dq).
  eexists. split.
  - intros center_name date. unfold _add_today.
    repeat rewrite append_assoc. reflexivity.
  - repeat split; vm_compute; reflexivity.
Qed.

Lemma add_today_modify_count (p center_name date : string) :
  has_char "<"%char center_name = false ->
  In p ["ACTION>"; "MODIFY/>"; "HOLD"; "ADD"] ->
  count_occ (String "<"%char p) (_add_today center_name true date) =
  count_occ (String "<"%char p)
    (dq ++ ">" ++ nl ++ "    <ACTIONS>" ++ nl ++ "        <ACTION>" ++ nl ++
     "            <MODIFY/>" ++ nl ++ "        </ACTION>" ++ nl ++
     "    </ACTIONS>" ++ nl ++ "    </SUBMISSION>" ++ nl ++ "    ").
Proof.
  intros Hc Hp. unfold _add_today.
  repeat rewrite append_assoc.
  simpl in Hp.
  destruct Hp as [<-|[<-|[<-|[<-|[]]]]];
    unfold nl at 1; count_head; simpl Nat.add;
    change ("" ++ ?x) with x;
    rewrite (count_occ_skip _ _ center_name _ Hc); reflexivity.
Qed.

(** ** The submission client *)

Section Submission.

Variable E : Env.

Lemma bind_inr {A B : Type} (m : M E A) (f : A -> M E B) (s s' : State E) (a : A) :
  m s = (inr a, s') -> bind E m f s = f a s'.
Proof. intros H; unfold bind; rewrite H; reflexivity. Qed.

Lemma bind_inl {A B : Type} (m : M E A) (f : A -> M E B) (s s' : State E) (e : exn) :
  m s = (inl e, s') -> bind E m f s = (inl e, s').
Proof. intros H; unfold bind; rewrite H; reflexivity. Qed.

Lemma bind_lift_inr {A B : Type} (a : A) (f : A -> M E B) :
  bind E (lift E (inr a)) f = f a.
Proof. reflexivity. Qed.

Lemma bind_assoc {A B C : Type} (m : M E A) (f : A -> M E B) (g : B -> M E C)
    (s : State E) :
  bind E (bind E m f) g s = bind E m (fun a => bind E (f a) g) s.
Proof. unfold bind. destruct (m s) as [[e|a] s1]; reflexivity. Qed.

(** The value of the scan does not depend on the state. *)
Lemma scan_errors_value (errors : list node) (s s' : State E) :
  fst (scan_errors E errors s) = fst (scan_errors E errors s').
Proof.
  induction errors as [|error rest IH]; simpl; [reflexivity|].
  destruct (contains phrase_exists (text error)).
  - unfold bind, lift. destruct (index_last (split (text error))); reflexivity.
  - destruct (contains phrase_waiting (text error)).
    + unfold bind, lift. destruct (index_nth (split (text error)) 4); reflexivity.
    + destruct (contains phrase_upload (text error)); [reflexivity | exact IH].
Qed.

(** Nor does the value of [handle_response]. *)
Lemma handle_response_value (status : Z) (content : string)
    (accession : option string) (s s' : State E) :
  value_of (handle_response E status content accession s) =
  value_of (handle_response E status content accession s').
Proof.
  unfold value_of, handle_response.
  destruct (status =? 200)%Z; simpl; [|reflexivity].
  destruct (0 <? List.length (findAll "ERROR" (bs E content)))%nat; [|reflexivity].
  pose proof (scan_errors_value (findAll "ERROR" (bs E content)) s s') as H.
  unfold bind.
  destruct (scan_errors E (findAll "ERROR" (bs E content)) s) as [[e|[code acc]] s1];
    destruct (scan_errors E (findAll "ERROR" (bs E content)) s') as [[e'|[code' acc']] s1'];
    simpl in H; try discriminate H.
  - exact H.
  - injection H as -> ->.
    destruct (negb (truthy acc') && (code' =? -1)%Z); reflexivity.
Qed.

(** [handle_response] at any state, from its value at one. *)
Lemma handle_response_at (status : Z) (content : string)
    (accession : option string) (s0 s : State E) (code : Z) (acc : option string) :
  value_of (handle_response E status content accession s0) = inr (code, acc) ->
  exists s', handle_response E status content accession s = (inr (code, acc), s') /\
             quiet s s'.
Proof.
  intros H. rewrite (handle_response_value _ _ _ s0 s) in H.
  destruct (handle_response_total E status content accession s)
    as (code' & acc' & s' & Hr & Hq & _).
  unfold value_of in H. rewrite Hr in H. simpl in H. injection H as -> ->.
  exists s'; split; assumption.
Qed.

(** What the scan writes does not depend on the state. *)
Lemma scan_errors_writes (errors : list node) (s s' : State E) :
  exists log,
    stderr (snd (scan_errors E errors s)) = (stderr s ++ log)%list /\
    stderr (snd (scan_errors E errors s')) = (stderr s' ++ log)%list.
Proof.
  induction errors as [|error rest IH]; simpl.
  - exists []. rewrite !app_nil_r. split; reflexivity.
  - destruct (contains phrase_exists (text error)).
    + unfold bind, lift. destruct (index_last (split (text error))) as [e|tok].
      * exists []. rewrite !app_nil_r. split; reflexivity.
      * eexists [_]. split; reflexivity.
    + destruct (contains phrase_waiting (text error)).
      * unfold bind, lift. destruct (index_nth (split (text error)) 4) as [e|tok].
        -- exists []. rewrite !app_nil_r. split; reflexivity.
        -- eexists [_]. split; reflexivity.
      * destruct (contains phrase_upload (text error)); [|exact IH].
        exists []. rewrite !app_nil_r. split; reflexivity.
Qed.

(** Nor does what [handle_response] writes. *)
Lemma handle_response_writes (status : Z) (content : string)
    (accession : option string) (s s' : State E) :
  exists log,
    stderr (snd (handle_response E status content accession s)) =
      (stderr s ++ log)%list /\
    stderr (snd (handle_response E status content accession s')) =
      (stderr s' ++ log)%list.
Proof.
  unfold handle_response.
  destruct (status =? 200)%Z; cbn [negb].
  - destruct (0 <? List.length (findAll "ERROR" (bs E content)))%nat.
    + destruct (scan_errors_writes (findAll "ERROR" (bs E content)) s s')
        as (log & Hs & Hs').
      pose proof (scan_errors_value (findAll "ERROR" (bs E content)) s s') as Hv.
      unfold bind at 1 3.
      destruct (scan_errors E (findAll "ERROR" (bs E content)) s) as [[e|[code acc]] s1];
        destruct (scan_errors E (findAll "ERROR" (bs E content)) s')
          as [[e'|[code' acc']] s1'];
        cbn [fst snd] in Hv, Hs, Hs'; try discriminate Hv.
      * exists log. split; assumption.
      * injection Hv as -> ->.
        destruct (negb (truthy acc') && (code' =? -1)%Z).
        -- eexists (log ++ [_])%list. unfold bind, write_stderr, ret. cbn [fst snd stderr].
           rewrite Hs, Hs', <- !app_assoc. split; reflexivity.
        -- exists log. split; assumption.
    + exists []. rewrite !app_nil_r. split; reflexivity.
  - eexists [_]. split; reflexivity.
Qed.

(** An OK outcome comes without a word on the diagnostic stream. *)
Lemma handle_response_ok_silent (status : Z) (content : string)
    (accession : option string) (s0 s : State E) (acc : option string) :
  value_of (handle_response E status content accession s0) = inr (OK, acc) ->
  handle_response E status content accession s = (inr (OK, acc), s).
Proof.
  unfold value_of, handle_response, OK.
  destruct (status =? 200)%Z; cbn [negb].
  - destruct (0 <? List.length (findAll "ERROR" (bs E content)))%nat.
    + destruct (scan_errors_total E (findAll "ERROR" (bs E content)) s0)
        as (code & a & s1 & Hscan & _ & Hout).
      rewrite (bind_inr _ _ _ _ _ Hscan). cbv beta iota.
      destruct Hout as [[-> Ha]|[[-> | ->] ->]].
      * destruct a as [a|]; [|contradiction].
        replace (negb (truthy (Some a)) && (DUPLICATE =? -1)%Z) with false
          by (rewrite andb_false_r; reflexivity).
        intros H; discriminate H.
      * intros H; discriminate H.
      * intros H; discriminate H.
    + intros H. cbn [fst ret] in H. injection H as <-. reflexivity.
  - intros H; discriminate H.
Qed.

End Submission.

(** C2, as amended. For every call of [submit_today] with [release_asap]
    true whose submission is answered and classified OK, a second request
    with the release envelope for the returned accession is sent, whatever
    becomes of it.  When it is answered, [submit_today] returns the
    accession of the submission together with the outcome of the release
    response, whose own accession is discarded; besides what classifying
    the release response writes, the line that tells of the release is
    written exactly when that outcome is OK.  When the release request
    raises, [submit_today] raises the same exception. *)
Theorem submit_today_release (E : Env) (submit_type payload center_name : string)
    (real modify : bool) (s : State E) (r1 : response) (w1 : World E)
    (acc : option string) :
  let url := dropbox_url real in
  let files :=
    dict_set (dict_set [] submit_type payload) "SUBMISSION"
      (_add_today center_name modify (today E (world s))) in
  let release := [("SUBMISSION", release_xml acc center_name)] in
  let run := submit_today E submit_type payload center_name true real modify s in
  requests_post E url files (world s) = (inr r1, w1) ->
  value_of (handle_response E (r_status_code r1) (r_text r1) (Some submit_type) s) =
    inr (OK, acc) ->
  sent (state_of run) = (sent s ++ [HttpPost url files; HttpPost url release])%list /\
  (forall r2 w2,
      requests_post E url release w1 = (inr r2, w2) ->
      exists status2 acc2,
        value_of (handle_response E (r_status_code r2) (r_text r2) None s) =
          inr (status2, acc2) /\
        value_of run = inr (status2, acc) /\
        stderr (state_of run) =
          (stderr (state_of (handle_response E (r_status_code r2) (r_text r2) None s)) ++
           (if (status2 =? 0)%Z then [released_line submit_type acc] else []))%list) /\
  (forall e w2,
      requests_post E url release w1 = (inl e, w2) ->
      value_of run = inl e /\ stderr (state_of run) = stderr s).
Proof.
  intros url files release run Hpost1 Hok. subst run.
  set (s1 := mkState E w1 (stderr s) (stdout s)
               (sent s ++ [HttpPost url files]) (calls s)).
  assert (P1 : post E url files s = (inr r1, s1)).
  { unfold post, bind, exchange, lift. rewrite Hpost1. reflexivity. }
  pose proof (handle_response_ok_silent E _ _ _ s s1 acc Hok) as Hc1.
  assert (Hrun : submit_today E submit_type payload center_name true real modify s =
                 bind E (_release_target E acc center_name real)
                   (fun r =>
                      bind E (handle_response E (r_status_code r) (r_text r) None)
                        (fun x =>
                           let (status, _) := x in
                           bind E
                             (if (status =? 0)%Z
                              then write_stderr E
                                     ("[INFO] " ++ submit_type ++
                                      " released successfully: " ++
                                      str_of_opt acc ++ nl)
                              else ret E tt)
                             (fun _ => ret E (status, acc)))) s1).
  { unfold submit_today.
    rewrite (bind_inr E _ _ s s (today E (world s))) by reflexivity.
    fold files. fold url. rewrite (bind_inr E _ _ _ _ _ P1).
    rewrite (bind_inr E _ _ _ _ _ Hc1). reflexivity. }
  set (s2 := fun w2 => mkState E w2 (stderr s) (stdout s)
                 (sent s ++ [HttpPost url files; HttpPost url release]) (calls s)).
  destruct (requests_post E url release w1) as [[e|r2] w2] eqn:Hpost2.
  - assert (P2 : _release_target E acc center_name real s1 = (inl e, s2 w2)).
    { unfold _release_target, post, bind, exchange, lift, s1. cbn [world].
      change (requests_post E (dropbox_url real)
                [("SUBMISSION", release_xml acc center_name)] w1)
        with (requests_post E url release w1).
      rewrite Hpost2. unfold s2. cbn [stderr stdout sent calls].
      rewrite <- app_assoc. reflexivity. }
    unfold value_of, state_of. rewrite Hrun, (bind_inl E _ _ _ _ _ P2).
    cbn [fst snd].
    split; [reflexivity|]. split; [intros r2 w2' H; discriminate H|].
    intros e' w2' H. injection H as <- <-. split; reflexivity.
  - assert (P2 : _release_target E acc center_name real s1 = (inr r2, s2 w2)).
    { unfold _release_target, post, bind, exchange, lift, s1. cbn [world].
      change (requests_post E (dropbox_url real)
                [("SUBMISSION", release_xml acc center_name)] w1)
        with (requests_post E url release w1).
      rewrite Hpost2. unfold s2. cbn [stderr stdout sent calls].
      rewrite <- app_assoc. reflexivity. }
    destruct (handle_response_total E (r_status_code r2) (r_text r2) None (s2 w2))
      as (status2 & acc2 & s3 & Hr2 & (_ & _ & Hs3 & _) & _).
    destruct (handle_response_writes E (r_status_code r2) (r_text r2) None s (s2 w2))
      as (log & Hl & Hl2).
    rewrite Hr2 in Hl2. cbn [snd] in Hl2.
    assert (Hv : value_of (handle_response E (r_status_code r2) (r_text r2) None s) =
                 inr (status2, acc2)).
    { rewrite (handle_response_value E _ _ _ s (s2 w2)). unfold value_of. rewrite Hr2.
      reflexivity. }
    assert (Hfinal :
      submit_today E submit_type payload center_name true real modify s =
      (inr (status2, acc),
       if (status2 =? 0)%Z
       then snd (write_stderr E (released_line submit_type acc) s3)
       else s3)).
    { rewrite Hrun, (bind_inr E _ _ _ _ _ P2), (bind_inr E _ _ _ _ _ Hr2).
      cbv beta iota. destruct (status2 =? 0)%Z; reflexivity. }
    unfold value_of, state_of. rewrite Hfinal. cbn [fst snd].
    split; [destruct (status2 =? 0)%Z; cbn [write_stderr snd sent]; exact Hs3|].
    split; [|intros e w2' H; discriminate H].
    intros r2' w2' H. injection H as <- <-.
    exists status2, acc2. split; [exact Hv|]. split; [reflexivity|].
    fold (state_of (handle_response E (r_status_code r2) (r_text r2) None s)) in Hl.
    unfold state_of at 1 in Hl. unfold state_of. rewrite Hl.
    destruct (status2 =? 0)%Z; cbn [write_stderr snd stderr]; rewrite Hl2;
      unfold s2; cbn [stderr]; rewrite ?app_nil_r; reflexivity.
Qed.

Lemma submit_today_release_witness :
  sent (state_of (submit_today Scripted "SAMPLE" "<SAMPLE_SET/>" "CENTRE" true false false
                    (start release_fails))) =
    (sent (start release_fails) ++
     [HttpPost (dropbox_url false)
        (dict_set (dict_set [] "SAMPLE" "<SAMPLE_SET/>") "SUBMISSION"
           (_add_today "CENTRE" false "2020-03-01"));
      HttpPost (dropbox_url false)
        [("SUBMISSION", release_xml (Some "ERS0001") "CENTRE")]])%list /\
  exists status2 acc2,
    value_of (handle_response Scripted 404 "Not Found" None (start release_fails)) =
      inr (status2, acc2) /\
    value_of (submit_today Scripted "SAMPLE" "<SAMPLE_SET/>" "CENTRE" true false false
                (start release_fails)) = inr (status2, Some "ERS0001") /\
    stderr (state_of (submit_today Scripted "SAMPLE" "<SAMPLE_SET/>" "CENTRE" true false
                        false (start release_fails))) =
      (stderr (state_of (handle_response Scripted 404 "Not Found" None
                           (start release_fails))) ++
       (if (status2 =? 0)%Z then [released_line "SAMPLE" (Some "ERS0001")] else []))%list.
Proof.
  destruct (submit_today_release Scripted "SAMPLE" "<SAMPLE_SET/>" "CENTRE" false false
              (start release_fails) (mkResponse 200 body_ok)
              (mkScript "[]" [mkResponse 404 "Not Found"] None "2020-03-01")
              (Some "ERS0001") eq_refl eq_refl) as (Hsent & Hanswered & _).
  split; [exact Hsent|].
  exact (Hanswered (mkResponse 404 "Not Found") (mkScript "[]" [] None "2020-03-01")
           eq_refl).
Defined.

(** C2 as stated fails: the submission is classified OK, the release is
    refused with a 404, and [submit_today] returns FATAL, the outcome of
    the release response. *)
Lemma submit_today_release_counterexample :
  value_of (handle_response Scripted 200 body_ok (Some "SAMPLE") (start release_fails)) =
    inr (OK, Some "ERS0001") /\
  value_of (submit_today Scripted "SAMPLE" "<SAMPLE_SET/>" "CENTRE" true false false
              (start release_fails)) = inr (FATAL, Some "ERS0001") /\
  value_of (submit_today Scripted "SAMPLE" "<SAMPLE_SET/>" "CENTRE" true false false
              (start release_fails)) <> inr (OK, Some "ERS0001").
Proof.
  split; [reflexivity|]. split; [reflexivity|]. vm_compute. discriminate.
Qed.

(** [register_sample] in modify mode sends one request, the submission. *)
Lemma register_sample_modify_sent (E : Env) (sample_alias taxon_id center_name : string)
    (attributes : list (string * string)) (real : bool) (s : State E) :
  exists payload,
    sent (state_of (register_sample E sample_alias taxon_id center_name
                        attributes real true s)) =
    (sent s ++
     [HttpPost (dropbox_url real)
        [("SAMPLE", payload);
         ("SUBMISSION", _add_today center_name true (today E (world s)))]])%list.
Proof.
  eexists. unfold register_sample, state_of, submit_today, post, exchange, log_call.
  unfold bind, lift. simpl.
  destruct (requests_post E _ _ (world s)) as [[e|r] w] eqn:Hpost.
  - reflexivity.
  - match goal with
    | |- context [handle_response E ?a ?b ?c ?st] =>
        destruct (handle_response_total E a b c st) as (code & acc & s' & Hr & Hq & _)
    end.
    rewrite Hr. simpl.
    destruct Hq as (_ & _ & Hs & _). rewrite Hs. reflexivity.
Qed.

(** C6, as amended. In modify mode the envelope of [_add_today] is the
    centre name between two fixed texts that hold one ACTION element, the
    MODIFY action, and no HOLD or ADD; for every centre name without the
    character that opens markup the same counts hold for the whole
    envelope; and [register_sample] then sends the submission and nothing
    else, so no release request, whatever the answer. *)
Theorem modify_mode_registration :
  (exists head tail,
      (forall center_name date,
          _add_today center_name true date = head ++ center_name ++ tail) /\
      count_occ "<ACTION>" head = 0%nat /\ count_occ "<ACTION>" tail = 1%nat /\
      count_occ "<MODIFY/>" head = 0%nat /\ count_occ "<MODIFY/>" tail = 1%nat /\
      count_occ "<HOLD" head = 0%nat /\ count_occ "<HOLD" tail = 0%nat /\
      count_occ "<ADD" head = 0%nat /\ count_occ "<ADD" tail = 0%nat /\
      count_occ "HoldUntilDate" head = 0%nat /\
      count_occ "HoldUntilDate" tail = 0%nat) /\
  (forall center_name date,
      has_char "<"%char center_name = false ->
      count_occ "<ACTION>" (_add_today center_name true date) = 1%nat /\
      count_occ "<MODIFY/>" (_add_today center_name true date) = 1%nat /\
      count_occ "<HOLD" (_add_today center_name true date) = 0%nat /\
      count_occ "<ADD" (_add_today center_name true date) = 0%nat) /\
  (forall (E : Env) (sample_alias taxon_id center_name : string)
          (attributes : list (string * string)) (real : bool) (s : State E),
      exists payload,
        sent (state_of (register_sample E sample_alias taxon_id center_name
                            attributes real true s)) =
        (sent s ++
         [HttpPost (dropbox_url real)
            [("SAMPLE", payload);
             ("SUBMISSION", _add_today center_name true (today E (world s)))]])%list).
Proof.
  split; [exact add_today_modify_shape|]. split.
  - intros center_name date Hc.
    repeat split;
      (rewrite add_today_modify_count; [reflexivity | exact Hc | simpl; tauto]).
  - exact register_sample_modify_sent.
Qed.

Lemma modify_mode_registration_witness :
  has_char "<"%char "CENTRE" = false /\
  count_occ "<MODIFY/>" (_add_today "CENTRE" true "2020-03-01") = 1%nat /\
  count_occ "<HOLD" (_add_today "CENTRE" true "2020-03-01") = 0%nat.
Proof.
  split; [reflexivity|].
  destruct (proj1 (proj2 modify_mode_registration) "CENTRE" "2020-03-01" eq_refl)
    as (_ & Hm & Hh & _).
  split; assumption.
Defined.

(** C6 as stated fails for a centre name that holds markup, which
    [_add_today] copies as it is: the envelope that [register_sample] sends
    in modify mode then holds two ACTION elements and a HOLD with its
    date. *)
Lemma modify_mode_registration_counterexample :
  has_char "<"%char markup_centre = true /\
  count_occ "<ACTION>" (_add_today markup_centre true "2020-03-01") = 2%nat /\
  count_occ "<MODIFY/>" (_add_today markup_centre true "2020-03-01") = 1%nat /\
  count_occ "<HOLD" (_add_today markup_centre true "2020-03-01") = 1%nat /\
  count_occ "HoldUntilDate" (_add_today markup_centre true "2020-03-01") = 1%nat /\
  exists payload,
    sent (state_of (register_sample Scripted "s1" "2697049" markup_centre []
                      false true (start release_fails))) =
    [HttpPost (dropbox_url false)
       [("SAMPLE", payload);
        ("SUBMISSION", _add_today markup_centre true "2020-03-01")]].
Proof.
  repeat (split; [reflexivity|]). eexists. reflexivity.
Qed.

(** ** The call log *)

Section CallLog.

Variable E : Env.
Variable P : call -> Prop.

Lemma logs_ret {A : Type} (a : A) : logs_only P (ret E a).
Proof. intros s; exists []; simpl; rewrite app_nil_r; auto. Qed.

Lemma logs_raise {A : Type} (e : exn) : logs_only P (@raise E A e).
Proof. intros s; exists []; simpl; rewrite app_nil_r; auto. Qed.

Lemma logs_lift {A : Type} (r : exn + A) : logs_only P (lift E r).
Proof. intros s; exists []; simpl; rewrite app_nil_r; auto. Qed.

Lemma logs_read {A : Type} (f : State E -> exn + A) : logs_only P (fun s => (f s, s)).
Proof. intros s; exists []; simpl; rewrite app_nil_r; auto. Qed.

Lemma logs_write_stderr (msg : string) : logs_only P (write_stderr E msg).
Proof. intros s; exists []; simpl; rewrite app_nil_r; auto. Qed.

Lemma logs_write_stdout (msg : string) : logs_only P (write_stdout E msg).
Proof. intros s; exists []; simpl; rewrite app_nil_r; auto. Qed.

Lemma logs_exchange {A : Type} (rq : request) (op : World E -> A * World E) :
  logs_only P (exchange E rq op).
Proof.
  intros s; exists []; unfold exchange. destruct (op (world s)); simpl.
  rewrite app_nil_r; auto.
Qed.

Lemma logs_log_call (c : call) : P c -> logs_only P (log_call E c).
Proof. intros H s; exists [c]; simpl; auto. Qed.

Lemma logs_bind {A B : Type} (m : M E A) (f : A -> M E B) :
  logs_only P m -> (forall a, logs_only P (f a)) -> logs_only P (bind E m f).
Proof.
  intros Hm Hf s. unfold bind. destruct (Hm s) as (n1 & H1 & F1).
  destruct (m s) as [[e|a] s1]; simpl in H1.
  - exists n1; simpl; auto.
  - destruct (Hf a s1) as (n2 & H2 & F2). exists (n1 ++ n2)%list.
    rewrite H2, H1, app_assoc. split; [reflexivity|]. apply Forall_app; auto.
Qed.

Lemma logs_handle_response (status : Z) (content : string) (accession : option string) :
  logs_only P (handle_response E status content accession).
Proof.
  intros s. destruct (handle_response_total E status content accession s)
    as (code & acc & s' & Hr & (_ & _ & _ & Hc) & _).
  exists []. rewrite Hr; simpl. rewrite Hc, app_nil_r; auto.
Qed.

End CallLog.

Create HintDb calls.

#[local] Hint Resolve logs_ret logs_raise logs_lift logs_read logs_write_stderr
  logs_write_stdout logs_exchange logs_handle_response : calls.

Ltac logs :=
  repeat first
    [ progress eauto with calls
    | match goal with
      | |- logs_only _ (bind _ _ _) => apply logs_bind; [|intros]
      end
    | match goal with
      | |- logs_only _ (match ?x with _ => _ end) => destruct x
      | |- logs_only _ (bind _ (match ?x with _ => _ end) _) => destruct x
      end ].

Section CallLogClient.

Variable E : Env.
Variable P : call -> Prop.

Lemma logs_post (url : string) (files : list (string * string)) :
  logs_only P (post E url files).
Proof. unfold post. logs. Qed.

Lemma logs_get_sample_list (project samp_name : string) :
  logs_only P (get_sample_list E project samp_name).
Proof. unfold get_sample_list. logs. Qed.

Lemma logs_submit_today (submit_type payload center_name : string)
    (release_asap real modify : bool) :
  logs_only P (submit_today E submit_type payload center_name release_asap real modify).
Proof.
  unfold submit_today, _release_target.
  pose proof logs_post. logs.
Qed.

Lemma logs_ftp_upload (fn : option string) : logs_only P (ftp_upload E fn).
Proof. unfold ftp_upload. logs. Qed.

Lemma logs_register_experiment (exp_alias : option string) (study : string)
    (sample : option string) (instrument : string) (library_d : library)
    (center_name : option string) (attributes : list (string * string)) (real : bool) :
  P (Call_register_experiment exp_alias study sample instrument library_d
       center_name attributes real) ->
  logs_only P (register_experiment E exp_alias study sample instrument library_d
                 center_name attributes real).
Proof.
  intros H. unfold register_experiment.
  pose proof logs_submit_today. pose proof (logs_log_call E P _ H).
  destruct (_convert_platform instrument). logs.
Qed.

Lemma logs_register_run (run_alias fn exp_acc center_name : option string)
    (fn_type : string) (real upload : bool) :
  P (Call_register_run run_alias fn exp_acc center_name fn_type real upload) ->
  logs_only P (register_run E run_alias fn exp_acc center_name fn_type real upload).
Proof.
  intros H. unfold register_run.
  pose proof logs_submit_today. pose proof logs_ftp_upload.
  pose proof (logs_log_call E P _ H). logs.
Qed.

End CallLogClient.

(** ** The orchestrator *)

Section Orchestrator.

Variable E : Env.

Lemma Forall_False_nil (l : list call) : Forall (fun _ => False) l -> l = [].
Proof. destruct l as [|c l]; [reflexivity|]. intros H; inversion H; contradiction. Qed.

(** A computation that logs nothing leaves the call log as it was. *)
Lemma logs_nothing {A : Type} (m : M E A) (s : State E) :
  logs_only (fun _ => False) m -> calls (snd (m s)) = calls s.
Proof.
  intros H. destruct (H s) as (new & Hc & HF).
  rewrite (Forall_False_nil _ HF), app_nil_r in Hc. exact Hc.
Qed.

(** What follows a computation can only add to its call log. *)
Lemma bind_extends {A B : Type} (m : M E A) (f : A -> M E B) (s : State E) :
  (forall a, logs_only (fun _ => True) (f a)) ->
  exists new, calls (snd (bind E m f s)) = (calls (snd (m s)) ++ new)%list.
Proof.
  intros Hf. unfold bind. destruct (m s) as [[e|a] s1]; simpl.
  - exists []; rewrite app_nil_r; reflexivity.
  - destruct (Hf a s1) as (new & Hc & _). exists new; exact Hc.
Qed.

Lemma register_experiment_calls (exp_alias : option string) (study : string)
    (sample : option string) (instrument : string) (library_d : library)
    (center_name : option string) (attributes : list (string * string)) (real : bool)
    (s : State E) :
  calls (snd (register_experiment E exp_alias study sample instrument library_d
                  center_name attributes real s)) =
  (calls s ++ [Call_register_experiment exp_alias study sample instrument library_d
                   center_name attributes real])%list.
Proof.
  unfold register_experiment. destruct (_convert_platform instrument) as [platform model].
  unfold bind at 1. unfold log_call at 1. cbv beta iota.
  rewrite logs_nothing; [reflexivity|].
  pose proof (logs_submit_today E (fun _ => False)). logs.
Qed.

End Orchestrator.

#[local] Hint Resolve logs_submit_today logs_ftp_upload logs_post
  logs_get_sample_list logs_log_call : calls.

#[local] Hint Extern 2 (logs_only _ (register_experiment _ _ _ _ _ _ _ _ _)) =>
  apply logs_register_experiment; split; [reflexivity | cbn; congruence] : calls.
#[local] Hint Extern 2 (logs_only _ (register_run _ _ _ _ _ _ _ _)) =>
  apply logs_register_run; split; [reflexivity | cbn; congruence] : calls.
#[local] Hint Extern 3 (logs_only (fun _ => True) (register_experiment _ _ _ _ _ _ _ _ _)) =>
  apply logs_register_experiment; exact I : calls.
#[local] Hint Extern 3 (logs_only (fun _ => True) (register_run _ _ _ _ _ _ _ _)) =>
  apply logs_register_run; exact I : calls.

(** C9. For every run of [cli] in which the search returns a list that is
    not empty, [register_sample] is never entered, every experiment
    registration of the run is entered with the secondary sample accession
    of the first record, and, when the run is not sample-only and the run
    arguments are given, such a registration takes place. *)
Theorem cli_reuses_existing_sample (E : Env) (args : Args) (s s1 : State E)
    (first : sample_record) (rest : list sample_record) :
  get_sample_list E (study_accession args) (sample_name args) s =
    (inr (first :: rest), s1) ->
  exists new,
    calls (state_of (cli E args s)) = (calls s ++ new)%list /\
    Forall (reuses (secondary_sample_accession first)) new /\
    (forall instrument attributes source selection,
        sample_only args = false ->
        run_instrument args = Some instrument ->
        experiment_attr args = Some attributes ->
        run_lib_source args = Some source ->
        run_lib_selection args = Some selection ->
        In (Call_register_experiment (run_name args) (study_accession args)
              (Some (secondary_sample_accession first))
              (replace_char "_"%char " "%char instrument)
              (mkLibrary (replace_char "_"%char " "%char source)
                 (replace_char "_"%char " "%char selection)
                 (_convert_library_strategy (run_lib_strategy args))
                 (run_lib_protocol args))
              (run_center_name args) (dict_of_pairs attributes)
              (my_data_is_ready args)) new).
Proof.
  intros H.
  set (acc := secondary_sample_accession first).
  assert (Hs1 : calls s1 = calls s).
  { pose proof (logs_nothing E _ s
                  (logs_get_sample_list E (fun _ => False)
                     (study_accession args) (sample_name args))) as Hk.
    rewrite H in Hk. exact Hk. }
  unfold cli, state_of. rewrite (bind_inr E _ _ _ _ _ H). cbv beta iota.
  set (s2 := mkState E (world s1)
               (stderr s1 ++ ["[SKIP] Accession " ++ acc ++ " already exists. Moving on..." ++ nl])
               (stdout s1) (sent s1) (calls s1)).
  rewrite (bind_inr E _ _ s1 s2 (1%Z, Some acc)) by reflexivity.
  cbv beta iota.
  match goal with
  | |- context [snd (?m s2)] =>
      assert (L : logs_only (reuses acc) m) by logs
  end.
  destruct (L s2) as (new & Hnew & HF).
  exists new. change (calls s2) with (calls s1) in Hnew. rewrite Hs1 in Hnew.
  split; [exact Hnew|]. split; [exact HF|].
  intros instrument attributes source selection Hso Hi Ha Hsrc Hsel.
  revert Hnew.
  rewrite Hso, Hi, Ha, Hsrc, Hsel.
  rewrite andb_false_r. cbn [Z.geb Z.compare andb negb].
  unfold replace_underscores, dict_comprehension.
  rewrite !bind_lift_inr, bind_assoc.
  match goal with
  | |- context [snd (bind E ?m ?f s2)] =>
      destruct (bind_extends E m f s2) as (more & Hext); [intros; logs|]
  end.
  rewrite Hext, register_experiment_calls.
  change (calls s2) with (calls s1). rewrite Hs1, <- app_assoc.
  intros Hnew. apply app_inv_head in Hnew. rewrite <- Hnew. left; reflexivity.
Qed.

Lemma cli_reuses_existing_sample_witness :
  exists new,
    calls (state_of (cli Scripted full_args (start sample_known))) =
      (calls (start sample_known) ++ new)%list /\
    Forall (reuses "ERS0001") new /\
    In (Call_register_experiment (Some "r1") "PRJEB0001" (Some "ERS0001")
          "Illumina MiSeq" (mkLibrary "VIRAL RNA" "PCR" (Some "AMPLICON") "")
          (Some "CENTRE") [] false) new.
Proof.
  destruct (cli_reuses_existing_sample Scripted full_args (start sample_known)
              (mkState Scripted sample_known [] []
                 [HttpGet ("https://www.ebi.ac.uk/ena/portal/api/search?query=study_accession=%22" ++
                           "PRJEB0001" ++ "%22%20AND%20sample_alias=%22" ++ "s1" ++
                           "%22&result=sample&fields=sample_accession,sample_description,sample_alias,secondary_sample_accession&limit=0&download=false&format=json")]
                 [])
              sample_s1 [] eq_refl) as (new & Hc & HF & Hin).
  exists new. split; [exact Hc|]. split; [exact HF|].
  exact (Hin "Illumina_MiSeq" [] "VIRAL_RNA" "PCR" eq_refl eq_refl eq_refl eq_refl eq_refl).
Defined.

(** A full run whose sample registration is fatal ends in an
    [UnboundLocalError]: [run_stat] is read and was never bound. *)
Lemma cli_fatal_sample_unbound (E : Env) (args : Args) (s s1 s2 : State E)
    (attrs : list (string * string)) (stat : Z) (acc : option string) :
  sample_only args = false ->
  get_sample_list E (study_accession args) (sample_name args) s = (inr [], s1) ->
  sample_attr args = Some attrs ->
  register_sample E (sample_name args) (sample_taxon args) (sample_center_name args)
    (dict_of_pairs attrs) (my_data_is_ready args) (modify args) s1 =
    (inr (stat, acc), s2) ->
  (stat < 0)%Z ->
  value_of (cli E args s) = inl (UnboundLocalError "run_stat").
Proof.
  intros Hso Hget Hattr Hreg Hneg.
  unfold cli, value_of. rewrite (bind_inr E _ _ _ _ _ Hget). cbv beta iota.
  rewrite Hattr. unfold dict_comprehension. rewrite bind_lift_inr.
  rewrite (bind_inr E _ _ _ _ _ Hreg). cbv beta iota.
  replace (stat >=? 0)%Z with false
    by (symmetry; rewrite Z.geb_leb; apply Z.leb_gt; exact Hneg).
  rewrite Hso. reflexivity.
Qed.

(** C1. In a full run in which the search finds no sample and the sample
    registration is answered with HTTP 500, so that it is FATAL, [cli]
    prints the summary line and then raises [UnboundLocalError] for
    [run_stat]: the process ends with status 1, not with 2. *)
Theorem cli_fatal_sample_exit :
  sample_only full_args = false /\
  value_of (cli Scripted full_args (start sample_refused)) =
    inl (UnboundLocalError "run_stat") /\
  stdout (state_of (cli Scripted full_args (start sample_refused))) =
    ["0 0 s1 r1 /data/r1.bam PRJEB0001 None None None" ++ nl] /\
  exit_status (value_of (cli Scripted full_args (start sample_refused))) = 1%Z.
Proof.
  assert (H : value_of (cli Scripted full_args (start sample_refused)) =
              inl (UnboundLocalError "run_stat")).
  { eapply cli_fatal_sample_unbound with (stat := FATAL) (acc := None);
      [reflexivity | reflexivity | reflexivity | vm_compute; reflexivity | reflexivity]. }
  split; [reflexivity|]. split; [exact H|]. split; [reflexivity|].
  rewrite H. reflexivity.
Qed.

(** So does a full run whose experiment registration is fatal. *)
Lemma cli_fatal_experiment_unbound (E : Env) (args : Args) (s s1 s3 : State E)
    (first : sample_record) (rest : list sample_record)
    (instrument source selection : string) (attributes : list (string * string))
    (stat : Z) (acc : option string) :
  sample_only args = false ->
  get_sample_list E (study_accession args) (sample_name args) s =
    (inr (first :: rest), s1) ->
  run_instrument args = Some instrument ->
  experiment_attr args = Some attributes ->
  run_lib_source args = Some source ->
  run_lib_selection args = Some selection ->
  register_experiment E (run_name args) (study_accession args)
    (Some (secondary_sample_accession first))
    (replace_char "_"%char " "%char instrument)
    (mkLibrary (replace_char "_"%char " "%char source)
       (replace_char "_"%char " "%char selection)
       (_convert_library_strategy (run_lib_strategy args)) (run_lib_protocol args))
    (run_center_name args) (dict_of_pairs attributes) (my_data_is_ready args)
    (snd (write_stderr E
            ("[SKIP] Accession " ++ secondary_sample_accession first ++
             " already exists. Moving on..." ++ nl) s1)) =
    (inr (stat, acc), s3) ->
  (stat < 0)%Z ->
  value_of (cli E args s) = inl (UnboundLocalError "run_stat").
Proof.
  intros Hso Hget Hi Ha Hsrc Hsel Hreg Hneg.
  unfold cli, value_of. rewrite (bind_inr E _ _ _ _ _ Hget). cbv beta iota.
  rewrite (bind_inr E _ _ s1 _ (1%Z, Some (secondary_sample_accession first)))
    by reflexivity.
  cbv beta iota. rewrite Hso, Hi, Ha, Hsrc, Hsel, andb_false_r.
  cbn [Z.geb Z.compare andb negb].
  unfold replace_underscores, dict_comprehension.
  rewrite !bind_lift_inr, bind_assoc.
  rewrite (bind_inr E _ _ _ _ _ Hreg). cbv beta iota.
  replace (stat >=? 0)%Z with false
    by (symmetry; rewrite Z.geb_leb; apply Z.leb_gt; exact Hneg).
  reflexivity.
Qed.
